(** * livecodingtv-bot: the chat client (src/Client.js)

    A shallow embedding of the [Client] class: the outgoing duplicate
    suppression of [sendMessage], the stanza normalisation of
    [parseMessage] / [parsePresence], the per-user command log and the
    settings accessors, together with the properties the specification
    states about them.

    Conventions.
    - A JavaScript string is modelled by the sequence of bytes of its
      UTF-8 encoding.  The two characters the code searches for, '/' and
      the backslash, are single bytes that occur inside no multi-byte
      sequence, so cutting a string at them is the same in both views.
    - A time stamp ([new Date().getTime()]) is an integer number of
      milliseconds; every function that reads the clock takes it as [now].
    - An object used as a dictionary is a finite map from property names
      to values; names inherited from the built-in prototypes are not
      part of the model. *)

From Stdlib Require Import ZArith Lia Ascii String.
From stdpp Require Import gmap strings list fin_maps.

Local Open Scope Z_scope.

(** ** MD5 (RFC 1321)

    [sendMessage] keys its store by
    [crypto.createHash('md5').update(msg).digest('hex')].  The digest
    comes from the platform's crypto module; it is written out here,
    over the bytes of the text, so that the key of a concrete message can
    be computed. *)
Module MD5.

Definition mask32 (x : Z) : Z := Z.land x 0xffffffff.

Definition add32 (x y : Z) : Z := mask32 (x + y).

Definition not32 (x : Z) : Z := Z.lxor x 0xffffffff.

Definition rotl32 (x c : Z) : Z :=
  mask32 (Z.lor (Z.shiftl x c) (Z.shiftr x (32 - c))).

(** Per-round shift amounts. *)
Definition shifts : list Z :=
  [7; 12; 17; 22; 7; 12; 17; 22; 7; 12; 17; 22; 7; 12; 17; 22;
   5;  9; 14; 20; 5;  9; 14; 20; 5;  9; 14; 20; 5;  9; 14; 20;
   4; 11; 16; 23; 4; 11; 16; 23; 4; 11; 16; 23; 4; 11; 16; 23;
   6; 10; 15; 21; 6; 10; 15; 21; 6; 10; 15; 21; 6; 10; 15; 21].

(** The sine table: entry [i] is the integer part of
    [2^32 * abs (sin (i + 1))]. *)
Definition sines : list Z :=
  [0xd76aa478; 0xe8c7b756; 0x242070db; 0xc1bdceee;
   0xf57c0faf; 0x4787c62a; 0xa8304613; 0xfd469501;
   0x698098d8; 0x8b44f7af; 0xffff5bb1; 0x895cd7be;
   0x6b901122; 0xfd987193; 0xa679438e; 0x49b40821;
   0xf61e2562; 0xc040b340; 0x265e5a51; 0xe9b6c7aa;
   0xd62f105d; 0x02441453; 0xd8a1e681; 0xe7d3fbc8;
   0x21e1cde6; 0xc33707d6; 0xf4d50d87; 0x455a14ed;
   0xa9e3e905; 0xfcefa3f8; 0x676f02d9; 0x8d2a4c8a;
   0xfffa3942; 0x8771f681; 0x6d9d6122; 0xfde5380c;
   0xa4beea44; 0x4bdecfa9; 0xf6bb4b60; 0xbebfbc70;
   0x289b7ec6; 0xeaa127fa; 0xd4ef3085; 0x04881d05;
   0xd9d4d039; 0xe6db99e5; 0x1fa27cf8; 0xc4ac5665;
   0xf4292244; 0x432aff97; 0xab9423a7; 0xfc93a039;
   0x655b59c3; 0x8f0ccc92; 0xffeff47d; 0x85845dd1;
   0x6fa87e4f; 0xfe2ce6e0; 0xa3014314; 0x4e0811a1;
   0xf7537e82; 0xbd3af235; 0x2ad7d2bb; 0xeb86d391].

Definition nthZ (l : list Z) (i : Z) : Z := nth (Z.to_nat i) l 0.

(** Little-endian bytes of a word, and back. *)
Fixpoint le_bytes (n : nat) (w : Z) : list Z :=
  match n with
  | O => []
  | S n' => Z.land w 0xff :: le_bytes n' (Z.shiftr w 8)
  end.

Fixpoint le_word (bs : list Z) : Z :=
  match bs with
  | [] => 0
  | b :: bs' => Z.lor b (Z.shiftl (le_word bs') 8)
  end.

(** The message followed by the bit 1, zero bytes up to 56 modulo 64, and
    the length in bits as a 64-bit little-endian number. *)
Definition pad (bs : list Z) : list Z :=
  let len := Z.of_nat (length bs) in
  let zeros := Z.to_nat ((55 - len) mod 64) in
  bs ++ [0x80] ++ repeat 0 zeros ++ le_bytes 8 (Z.land (8 * len) 0xffffffffffffffff).

(** Cut a list into the words of [k] bytes it holds; [fuel] bounds the
    number of words. *)
Fixpoint words (fuel : nat) (k : nat) (bs : list Z) : list Z :=
  match fuel, bs with
  | O, _ | _, [] => []
  | S fuel', _ => le_word (take k bs) :: words fuel' k (drop k bs)
  end.

Fixpoint blocks (fuel : nat) (ws : list Z) : list (list Z) :=
  match fuel, ws with
  | O, _ | _, [] => []
  | S fuel', _ => take 16 ws :: blocks fuel' (drop 16 ws)
  end.

Record regs := Regs { rA : Z; rB : Z; rC : Z; rD : Z }.

Definition init : regs :=
  Regs 0x67452301 0xefcdab89 0x98badcfe 0x10325476.

(** One of the 64 operations on a block [m]. *)
Definition op (m : list Z) (r : regs) (i : Z) : regs :=
  let '(Regs a b c d) := r in
  let '(f, g) :=
    if i <? 16 then (Z.lor (Z.land b c) (Z.land (not32 b) d), i)
    else if i <? 32 then (Z.lor (Z.land d b) (Z.land (not32 d) c), (5 * i + 1) mod 16)
    else if i <? 48 then (Z.lxor (Z.lxor b c) d, (3 * i + 5) mod 16)
    else (Z.lxor c (Z.lor b (not32 d)), (7 * i) mod 16) in
  let f' := add32 (add32 (add32 f a) (nthZ sines i)) (nthZ m g) in
  Regs d (add32 b (rotl32 f' (nthZ shifts i))) b c.

Definition block (r : regs) (m : list Z) : regs :=
  let r' := fold_left (op m) (map Z.of_nat (seq 0 64)) r in
  Regs (add32 (rA r) (rA r')) (add32 (rB r) (rB r'))
       (add32 (rC r) (rC r')) (add32 (rD r) (rD r')).

Definition digest (bs : list Z) : list Z :=
  let p := pad bs in
  let ws := words (length p) 4 p in
  let r := fold_left block (blocks (length ws) ws) init in
  le_bytes 4 (rA r) ++ le_bytes 4 (rB r) ++ le_bytes 4 (rC r) ++ le_bytes 4 (rD r).

Definition hex_digit (d : Z) : ascii :=
  if d <? 10 then ascii_of_nat (Z.to_nat (48 + d))
  else ascii_of_nat (Z.to_nat (87 + d)).

Fixpoint hex (bs : list Z) : string :=
  match bs with
  | [] => EmptyString
  | b :: bs' =>
      String (hex_digit (Z.shiftr b 4)) (String (hex_digit (Z.land b 0xf)) (hex bs'))
  end.

Fixpoint bytes_of (s : string) : list Z :=
  match s with
  | EmptyString => []
  | String c s' => Z.of_nat (nat_of_ascii c) :: bytes_of s'
  end.

(** [createHash('md5').update(s).digest('hex')] *)
Definition md5_hex (s : string) : string := hex (digest (bytes_of s)).

End MD5.

(** ** Values, objects and the heap *)

(** A number is NaN or an integer: the only numbers the client computes
    with are time stamps and their differences. *)
Inductive num := NaN | Int (z : Z).

Definition loc := positive.

Inductive val :=
| VUndef
| VNull
| VBool (b : bool)
| VNum (n : num)
| VStr (s : string)
| VRef (l : loc).

(** An object: its own properties. *)
Abbreviation obj := (gmap string val).

(** An XML element as the transport hands it over: a name, attributes and
    children, each child a text fragment or an element. *)
Inductive element :=
| Element (name : string) (attrs : gmap string string) (children : list child)
with child :=
| Text (s : string)
| Elem (e : element).

Definition name (e : element) : string := let '(Element n _ _) := e in n.
Definition attrs (e : element) : gmap string string := let '(Element _ a _) := e in a.
Definition children (e : element) : list child := let '(Element _ _ c) := e in c.

(** What a run can touch: the heap of objects, the in-memory view of the
    persistent store ([brain]), the stanzas handed to [client.send] and
    the lines handed to [Log.log], oldest first.  An object put in the
    store is held there by reference; every function below that changes a
    stored map stores it back afterwards, so a store handing out copies
    would end in the same maps. *)
Record state := State {
  heap : gmap loc obj;
  brain : gmap string val;
  outbox : list element;
  console : list string
}.

Definition set_heap (h : gmap loc obj) (s : state) : state :=
  State h (brain s) (outbox s) (console s).
Definition set_brain (b : gmap string val) (s : state) : state :=
  State (heap s) b (outbox s) (console s).
Definition set_outbox (o : list element) (s : state) : state :=
  State (heap s) (brain s) o (console s).
Definition set_console (c : list string) (s : state) : state :=
  State (heap s) (brain s) (outbox s) c.

(** A run returns normally, ends in an uncaught TypeError, or leaves the
    fragment of JavaScript modelled here (a reference to no object, the
    coercion of a string or an object to a number, the serialisation of
    an element to text). *)
Inductive result (A : Type) :=
| Ok (a : A) (s : state)
| Throw (s : state)
| Unmodelled.
Arguments Ok {A} a s.
Arguments Throw {A} s.
Arguments Unmodelled {A}.

Definition M (A : Type) : Type := state -> result A.

Definition ret {A} (a : A) : M A := fun s => Ok a s.

Definition bind {A B} (m : M A) (k : A -> M B) : M B :=
  fun s =>
    match m s with
    | Ok a s' => k a s'
    | Throw s' => Throw s'
    | Unmodelled => Unmodelled
    end.

Definition throw {A} : M A := fun s => Throw s.
Definition unmodelled {A} : M A := fun _ => Unmodelled.

Notation "'let!' x ':=' m 'in' k" := (bind m (fun x => k))
  (at level 10, x name, m at level 100, k at level 200).
Notation "m ';;' k" := (bind m (fun _ => k))
  (at level 100, k at level 200, right associativity).

(** *** Primitive operations *)

(** ToBoolean *)
Definition truthy (v : val) : bool :=
  match v with
  | VUndef | VNull => false
  | VBool b => b
  | VNum NaN => false
  | VNum (Int z) => negb (z =? 0)
  | VStr s => negb (String.eqb s "")
  | VRef _ => true
  end.

(** ToNumber, where it is modelled. *)
Definition toNumber (v : val) : M num :=
  match v with
  | VUndef => ret NaN
  | VNull => ret (Int 0)
  | VBool b => ret (Int (if b then 1 else 0))
  | VNum n => ret n
  | VStr _ | VRef _ => unmodelled
  end.

Definition num_sub (a b : num) : num :=
  match a, b with
  | Int x, Int y => Int (x - y)
  | _, _ => NaN
  end.

(** [a < b] on numbers: false as soon as one side is NaN. *)
Definition num_lt (a b : num) : bool :=
  match a, b with
  | Int x, Int y => x <? y
  | _, _ => false
  end.

(** [a || b]: [b] is evaluated only when [a] is falsy. *)
Definition or_else (a : val) (b : M val) : M val :=
  if truthy a then ret a else b.

(** An object literal: a new object at a location not yet in use. *)
Definition new_object (o : obj) : M val :=
  fun s =>
    let l := fresh (dom (heap s)) in
    Ok (VRef l) (set_heap (<[l := o]> (heap s)) s).

(** [v[k]] read.  Reading a property of [undefined] or [null] throws; a
    number or a boolean has no own property.  Own properties only: a
    name that the object inherits and does not have itself ([inherited]
    below lists them) reads here as [undefined]; statements about such
    names carry the hypothesis that excludes them where it matters. *)
Definition getProp (v : val) (k : string) : M val :=
  match v with
  | VUndef | VNull => throw
  | VBool _ | VNum _ => ret VUndef
  | VStr _ => unmodelled
  | VRef l =>
      fun s =>
        match heap s !! l with
        | Some o => Ok (default VUndef (o !! k)) s
        | None => Unmodelled
        end
  end.

(** [v[k] = x] in strict mode: only an object takes the property.  The
    write makes an own property; for the one name [__proto__] the
    platform changes the prototype instead, which is outside this
    model. *)
Definition setProp (v : val) (k : string) (x : val) : M unit :=
  match v with
  | VRef l =>
      fun s =>
        match heap s !! l with
        | Some o => Ok tt (set_heap (<[l := <[k := x]> o]> (heap s)) s)
        | None => Unmodelled
        end
  | _ => throw
  end.

(** [brain.getItem(key)] and [brain.getItemSync(key)]: the value held
    under [key], [undefined] when there is none. *)
Definition getItem (key : string) : M val :=
  fun s => Ok (default VUndef (brain s !! key)) s.

(** [brain.setItem(key, value)] and [brain.setItemSync(key, value)]. *)
Definition setItem (key : string) (v : val) : M unit :=
  fun s => Ok tt (set_brain (<[key := v]> (brain s)) s).

(** [this.client.send(stanza)] *)
Definition client_send (e : element) : M unit :=
  fun s => Ok tt (set_outbox (outbox s ++ [e]) s).

(** Modelled from the spec: [Log.log] of the module [./Log], which the
    client requires; it only logs, here by recording the line. *)
Definition Log_log (line : string) : M unit :=
  fun s => Ok tt (set_console (console s ++ [line]) s).

(** ** Strings *)

Definition slash : ascii := ascii_of_nat 47.
Definition backslash : string := String (ascii_of_nat 92) EmptyString.

(** [s.indexOf(c)] for a one-character [c]: the position of its first
    occurrence, or -1. *)
Fixpoint indexOf (c : ascii) (s : string) : Z :=
  match s with
  | EmptyString => -1
  | String a s' =>
      if Ascii.eqb a c then 0
      else let i := indexOf c s' in if i <? 0 then -1 else 1 + i
  end.

Fixpoint string_drop (n : nat) (s : string) : string :=
  match n, s with
  | O, _ => s
  | S _, EmptyString => EmptyString
  | S n', String _ s' => string_drop n' s'
  end.

(** [s.substr(start)]: from [start] to the end, a negative [start]
    counting from the end. *)
Definition substr (s : string) (start : Z) : string :=
  let len := Z.of_nat (String.length s) in
  let from := if start <? 0 then Z.max (len + start) 0 else Z.min start len in
  string_drop (Z.to_nat from) s.

(** Whether [s] begins with [p]. *)
Fixpoint starts_with (p s : string) : bool :=
  match p, s with
  | EmptyString, _ => true
  | String a p', String b s' => Ascii.eqb a b && starts_with p' s'
  | String _ _, EmptyString => false
  end.

(** [s.replace(pat, rep)] for a string pattern (and a replacement free of
    dollar signs): the first occurrence of [pat], if any, is replaced. *)
Fixpoint replace (pat rep s : string) : string :=
  if starts_with pat s then String.append rep (string_drop (String.length pat) s)
  else match s with
       | EmptyString => EmptyString
       | String a s' => String a (replace pat rep s')
       end.

(** [children.join('')] on text fragments; an element among them would
    be serialised by the XML library. *)
Fixpoint join (cs : list child) : M string :=
  match cs with
  | [] => ret EmptyString
  | Text t :: cs' => let! r := join cs' in ret (String.append t r)
  | Elem _ :: _ => unmodelled
  end.

(** ** The client *)

Record credentials := Credentials {
  jid : string; password : string; roomJid : string; username : string
}.

Record Client := MkClient { creds : credentials; debug : bool }.

(** The normalised form of a message stanza. *)
Record message_event := MessageEvent {
  type : string; fromUsername : string; message : string; rateLimited : bool
}.

(** The normalised form of a presence stanza; [role] is [None] where the
    attribute is undefined. *)
Record presence_event := PresenceEvent {
  p_type : string; p_fromUsername : string; p_message : string; role : option string
}.

Definition sendPresence (this : Client) : M unit :=
  client_send
    (Element "presence"
       {[ "to" := String.append (roomJid (creds this))
                    (String slash (username (creds this))) ]} []).

Definition sendMessage (this : Client) (msg : string) (now : Z) : M val :=
  if debug this then
    Log_log (String.append "DEBUGGING: " msg) ;;
    ret (VBool false)
  else
    let! stored := getItem "messages" in
    let! messages := or_else stored (new_object ∅) in
    let hash := MD5.md5_hex msg in
    let! previousMessage := getProp messages hash in
    let! messageObj := new_object {[ "message" := VStr msg; "time" := VNum (Int now) ]} in
    let! send :=
      if negb (truthy previousMessage) then ret true
      else
        let! t := getProp messageObj "time" in
        let! t := toNumber t in
        let! p := getProp previousMessage "time" in
        let! p := toNumber p in
        ret (num_lt (Int 5000) (num_sub t p)) in
    (if send : bool then
       client_send
         (Element "message" {[ "to" := roomJid (creds this); "type" := "groupchat" ]}
            [Elem (Element "body" ∅ [Text msg])])
     else
       Log_log "Skipping sendMessage - previous message sent within 5 seconds") ;;
    setProp messages hash messageObj ;;
    setItem "messages" messages ;;
    ret VUndef.

Definition replyTo (this : Client) (user msg : string) (now : Z) : M val :=
  sendMessage this (String.append "@" (String.append user (String.append ": " msg))) now ;;
  ret VUndef.

Definition getSetting (key : string) : M val :=
  let! v := getItem key in
  or_else v (ret VNull).

Definition saveSetting (key : string) (value : val) : M unit :=
  setItem key value.

Definition getUser (user : string) : M val :=
  let! leaderboard := getSetting "leaderboard" in
  let! u := getProp leaderboard user in
  or_else u (new_object ∅).

(** The first child that is an element called [name], [None] ([null])
    when there is none; a text fragment has no [name]. *)
Fixpoint findChild (nm : string) (cs : list child) : option element :=
  match cs with
  | [] => None
  | Text _ :: cs' => findChild nm cs'
  | Elem e :: cs' => if String.eqb (name e) nm then Some e else findChild nm cs'
  end.

Definition parseFromUsername (stanza : element) : M string :=
  match attrs stanza !! "from" with
  | None => throw
  | Some fromJid => ret (substr fromJid (indexOf slash fromJid + 1))
  end.

Definition parseMessage (stanza : element) (now : Z) : M message_event :=
  let type := "message" in
  let! fromUsername := parseFromUsername stanza in
  let body := findChild "body" (children stanza) in
  let! message :=
    match body with
    | None => throw
    | Some b => let! text := join (children b) in ret (replace backslash "" text)
    end in
  let! stored := getItem "userMessages" in
  let! messages := or_else stored (new_object ∅) in
  let! userMessageLog := getProp messages fromUsername in
  let! lastCommandTime :=
    let! l := (if truthy userMessageLog then getProp userMessageLog "lastCommandTime"
               else ret userMessageLog) in
    or_else l (ret (VNum (Int 0))) in
  let! messageObj := new_object {[ "time" := VNum (Int now) ]} in
  let! rateLimited :=
    let! l := toNumber lastCommandTime in
    if num_lt (Int 0) l then
      let! t := getProp messageObj "time" in
      let! t := toNumber t in
      let! l := toNumber lastCommandTime in
      ret (num_lt (num_sub t l) (Int 5000))
    else ret false in
  setProp messages fromUsername messageObj ;;
  setItem "userMessages" messages ;;
  ret (MessageEvent type fromUsername message rateLimited).

Definition parsePresence (stanza : element) : M presence_event :=
  let type := "presence" in
  let! fromUsername := parseFromUsername stanza in
  let message :=
    match attrs stanza !! "type" with
    | Some t => if String.eqb t "" then "available" else t
    | None => "available"
    end in
  match findChild "x" (children stanza) with
  | None => throw
  | Some xObj =>
      match findChild "item" (children xObj) with
      | None => throw
      | Some itemObj =>
          ret (PresenceEvent type fromUsername message (attrs itemObj !! "role"))
      end
  end.

(** [parseStanza]: [None] stands for the [undefined] returned for a stanza
    that is neither a message nor a presence. *)
Definition parseStanza (stanza : element) (now : Z)
  : M (option (message_event + presence_event)) :=
  if String.eqb (name stanza) "message" then
    let! e := parseMessage stanza now in ret (Some (inl e))
  else if String.eqb (name stanza) "presence" then
    let! e := parsePresence stanza in ret (Some (inr e))
  else ret None.

Definition updateLatestCommandLog (stanza : message_event) (now : Z) : M unit :=
  let! stored := getItem "userMessages" in
  let! messages := or_else stored (new_object ∅) in
  let! entry := getProp messages (fromUsername stanza) in
  let! userMessageLog := or_else entry (new_object ∅) in
  setProp userMessageLog "lastCommandTime" (VNum (Int now)) ;;
  setItem "userMessages" messages.

(** ** Reading the store *)

(** The object held in the store under [key]. *)
Definition stored_object (s : state) (key : string) : option obj :=
  match brain s !! key with
  | Some (VRef l) => heap s !! l
  | _ => None
  end.

(** The record that the map held under [key] has for the name [k]. *)
Definition stored_record (s : state) (key k : string) : option obj :=
  match stored_object s key with
  | Some m =>
      match m !! k with
      | Some (VRef r) => heap s !! r
      | _ => None
      end
  | None => None
  end.

(** A store in which nothing was ever saved. *)
Definition empty_state : state := State ∅ ∅ [] [].

(** ** Well-formed stores *)

(** A field that is absent or holds a number. *)
Definition numeric (v : option val) : bool :=
  match v with
  | None | Some (VNum _) => true
  | _ => false
  end.

(** The number read from the field [f] of a record. *)
Definition field_num (o : obj) (f : string) : num :=
  match o !! f with
  | Some (VNum n) => n
  | _ => NaN
  end.

(** An entry of the map at [l]: a reference to a record, an object other
    than the map, whose field [f] is numeric. *)
Definition entry_ok (h : gmap loc obj) (l : loc) (f : string) (k : string) (v : val) : Prop :=
  match v with
  | VRef p =>
      p ≠ l ∧ match h !! p with
              | Some o => numeric (o !! f) = true
              | None => False
              end
  | _ => False
  end.

(** The store holds nothing under [key], or a map of such records: the
    states the client's own writes produce. *)
Definition store_ok (key f : string) (s : state) : Prop :=
  match brain s !! key with
  | None => True
  | Some (VRef l) =>
      match heap s !! l with
      | Some m => map_Forall (entry_ok (heap s) l f) m
      | None => False
      end
  | Some _ => False
  end.

Definition messages_ok : state -> Prop := store_ok "messages" "time".
Definition userMessages_ok : state -> Prop := store_ok "userMessages" "lastCommandTime".

(** ** The decisions, read off the store *)

(** The stanza [sendMessage] hands to the transport. *)
Definition message_stanza (this : Client) (msg : string) : element :=
  Element "message" {[ "to" := roomJid (creds this); "type" := "groupchat" ]}
    [Elem (Element "body" ∅ [Text msg])].

(** The record [sendMessage] writes. *)
Definition send_record (msg : string) (now : Z) : obj :=
  {[ "message" := VStr msg; "time" := VNum (Int now) ]}.

(** Whether a message goes out: no record under its hash, or one more
    than 5000 ms old. *)
Definition should_send (s : state) (msg : string) (now : Z) : bool :=
  match stored_record s "messages" (MD5.md5_hex msg) with
  | None => true
  | Some o => num_lt (Int 5000) (num_sub (Int now) (field_num o "time"))
  end.

(** A call that put nothing in the outbox. *)
Definition suppressed (before after : state) : Prop :=
  outbox after = outbox before.

(** The text of a list of fragments, in order. *)
Definition concat_text (frags : list string) : string :=
  fold_right String.append EmptyString frags.

(** The nickname [parseFromUsername] cuts out of an address. *)
Definition sender (jid : string) : string := substr jid (indexOf slash jid + 1).

Definition is_text (c : child) : bool :=
  match c with
  | Text _ => true
  | Elem _ => false
  end.

(** A message stanza sent by [user]: a [from] address that yields [user]
    and a [body] child made of text fragments. *)
Definition message_from (stanza : element) (user : string) : bool :=
  match attrs stanza !! "from", findChild "body" (children stanza) with
  | Some jid, Some b => String.eqb (sender jid) user && forallb is_text (children b)
  | _, _ => false
  end.

(** The last command time the rate-limit check works with,
    [(log && log.lastCommandTime) || 0]. *)
Definition last_command (o : obj) : num :=
  match o !! "lastCommandTime" with
  | Some (VNum (Int z)) => Int z
  | _ => Int 0
  end.

(** The outcome of the rate-limit check for [user] at [now]. *)
Definition rate_limited (s : state) (user : string) (now : Z) : bool :=
  match stored_record s "userMessages" user with
  | None => false
  | Some o =>
      num_lt (Int 0) (last_command o)
      && num_lt (num_sub (Int now) (last_command o)) (Int 5000)
  end.

(** ** The specification's wording, for comparison *)

(** Whether [c] occurs in [s]. *)
Definition occurs (c : ascii) (s : string) : bool := 0 <=? indexOf c s.

(** The substring after the last [c]. *)
Fixpoint after_last (c : ascii) (s : string) : string :=
  match s with
  | EmptyString => EmptyString
  | String a s' =>
      if occurs c s' then after_last c s'
      else if Ascii.eqb a c then s' else s
  end.

(** [s] with every backslash removed. *)
Fixpoint strip_backslashes (s : string) : string :=
  match s with
  | EmptyString => EmptyString
  | String a s' =>
      if Ascii.eqb a (ascii_of_nat 92) then strip_backslashes s'
      else String a (strip_backslashes s')
  end.

(** ** Sample data *)

Definition bot : Client :=
  MkClient (Credentials "bot@livecoding.tv" "secret" "room@chat.livecoding.tv" "bot") false.

Definition debug_bot : Client := MkClient (creds bot) true.

(** A message stanza with the given sender address and text fragments. *)
Definition chat (jid : string) (frags : list string) : element :=
  Element "message" {[ "from" := jid ]} [Elem (Element "body" ∅ (Text <$> frags))].

Definition alice_jid : string := "room@conf.example.com/alice".

(** Two different texts with the same MD5 digest. *)
Definition twin_a : string :=
  "TEXTCOLLBYfGiJUETHQ4hAcKSMd5zYpgqf1YRDhkmxHkhPWptrkoyz28wnI9V0aHeAuaKnak".
Definition twin_e : string :=
  "TEXTCOLLBYfGiJUETHQ4hEcKSMd5zYpgqf1YRDhkmxHkhPWptrkoyz28wnI9V0aHeAuaKnak".

(** The store holds no sent message: nothing under the key, or an empty
    map. *)
Definition messages_empty (s : state) : Prop :=
  brain s !! "messages" = None \/ stored_object s "messages" = Some ∅.

(** ** Further readings of the code *)

(** The property names every object inherits from [Object.prototype]:
    reading one of them from an object that has no own property of that
    name yields the inherited value, not [undefined]. *)
Definition inherited (k : string) : bool :=
  existsb (String.eqb k)
    ["constructor"; "__defineGetter__"; "__defineSetter__"; "hasOwnProperty";
     "__lookupGetter__"; "__lookupSetter__"; "isPrototypeOf";
     "propertyIsEnumerable"; "toString"; "valueOf"; "__proto__";
     "toLocaleString"].

(** The number of occurrences of [c] in [s]. *)
Fixpoint count_char (c : ascii) (s : string) : nat :=
  match s with
  | EmptyString => O
  | String a s' => ((if Ascii.eqb a c then 1 else 0) + count_char c s')%nat
  end.

(** The text [replyTo] hands to [sendMessage]. *)
Definition reply_text (user msg : string) : string :=
  String.append "@" (String.append user (String.append ": " msg)).

(** The status [parsePresence] reports: [stanza.attrs.type || 'available']. *)
Definition presence_status (stanza : element) : string :=
  match attrs stanza !! "type" with
  | Some t => if String.eqb t "" then "available" else t
  | None => "available"
  end.

(** [sendMessage] of one text at each of the given times, in order. *)
Fixpoint send_each (this : Client) (msg : string) (times : list Z) : M unit :=
  match times with
  | [] => ret tt
  | t :: ts => sendMessage this msg t ;; send_each this msg ts
  end.

(** The time of the record kept for a text, if there is one. *)
Definition last_sent (s : state) (msg : string) : option num :=
  (fun o => field_num o "time") <$> stored_record s "messages" (MD5.md5_hex msg).

(** The sliding window on its own: a send goes out when there is no
    earlier one or the latest one, sent or not, is more than 5000 ms old. *)
Definition goes_out (last : option num) (now : Z) : bool :=
  match last with
  | None => true
  | Some n => num_lt (Int 5000) (num_sub (Int now) n)
  end.

Fixpoint window (last : option num) (times : list Z) : list bool :=
  match times with
  | [] => []
  | t :: ts => goes_out last t :: window (Some (Int t)) ts
  end.

Fixpoint count_true (bs : list bool) : nat :=
  match bs with
  | [] => O
  | b :: bs' => ((if b then 1 else 0) + count_true bs')%nat
  end.

(** Each time is at most 5000 ms after the one before it, starting from
    [t0]. *)
Fixpoint within_window (t0 : Z) (times : list Z) : bool :=
  match times with
  | [] => true
  | t :: ts => (t - t0 <=? 5000) && within_window t ts
  end.

(** A store with a leaderboard that knows alice. *)
Definition leaderboard_state : state :=
  State {[ 1%positive := {[ "alice" := VRef 2%positive ]};
           2%positive := {[ "points" := VNum (Int 5) ]} ]}
        {[ "leaderboard" := VRef 1%positive ]} [] [].

(** A presence stanza as a room sends it: the role sits on the [item]
    inside the [x] child. *)
Definition presence_of (jid role : string) : element :=
  Element "presence" {[ "from" := jid ]}
    [Elem (Element "x" ∅ [Elem (Element "item" {[ "role" := role ]} [])])].

(** The store after the text hi was sent at time 0 on an empty store. *)
Definition hi_sent : state :=
  Eval vm_compute in
    match sendMessage bot "hi" 0 empty_state with
    | Ok _ s => s
    | _ => empty_state
    end.

(** The store after a message stanza from alice was parsed at time 1000
    on an empty store. *)
Definition alice_seen : state :=
  Eval vm_compute in
    match parseMessage (chat alice_jid ["!help"]) 1000 empty_state with
    | Ok _ s => s
    | _ => empty_state
    end.
(** * Properties *)

(** Well-formedness of a store can be decided. *)
#[global] Instance entry_ok_dec h l f k v : Decision (entry_ok h l f k v).
Proof.
  unfold entry_ok. destruct v; try (right; tauto).
  destruct (h !! l0); apply _.
Defined.

#[global] Instance store_ok_dec key f s : Decision (store_ok key f s).
Proof.
  unfold store_ok. destruct (brain s !! key) as [[]|]; try apply _.
  destruct (heap s !! l); apply _.
Defined.

(** ** Running the primitives *)

Lemma fresh_heap (h : gmap loc obj) : h !! fresh (dom h) = None.
Proof. apply not_elem_of_dom, is_fresh. Qed.

Lemma fresh_ne (h : gmap loc obj) (l : loc) (o : obj) :
  h !! l = Some o -> l ≠ fresh (dom h).
Proof. intros H ->. rewrite fresh_heap in H. discriminate. Qed.

Lemma bind_Ok {A B} (m : M A) (k : A -> M B) s a s' :
  m s = Ok a s' -> bind m k s = k a s'.
Proof. unfold bind. intros ->. reflexivity. Qed.

Lemma getProp_ref l k s o :
  heap s !! l = Some o -> getProp (VRef l) k s = Ok (default VUndef (o !! k)) s.
Proof. simpl. intros ->. reflexivity. Qed.

Lemma setProp_ref l k x s o :
  heap s !! l = Some o ->
  setProp (VRef l) k x s = Ok tt (set_heap (<[l := <[k := x]> o]> (heap s)) s).
Proof. simpl. intros ->. reflexivity. Qed.

(** Loading the map kept under [key]: the stored object, or a new empty
    one when the key holds nothing. *)
Lemma load_map key f s :
  store_ok key f s ->
  exists l m s0,
    (forall B (K : val -> M B),
        (let! stored := getItem key in
         let! messages := or_else stored (new_object ∅) in
         K messages) s = K (VRef l) s0) /\
    heap s0 !! l = Some m /\
    map_Forall (entry_ok (heap s0) l f) m /\
    brain s0 = brain s /\ outbox s0 = outbox s /\ console s0 = console s /\
    (forall p o, heap s !! p = Some o -> heap s0 !! p = Some o) /\
    (brain s !! key = None \/ brain s !! key = Some (VRef l) /\ heap s0 = heap s) /\
    (forall k, stored_record s key k =
               match m !! k with Some (VRef p) => heap s0 !! p | _ => None end).
Proof.
  unfold store_ok, stored_record, stored_object. intros Hok.
  destruct (brain s !! key) as [v|] eqn:Hb.
  - destruct v; try contradiction.
    destruct (heap s !! l) as [m|] eqn:Hl; [|contradiction].
    exists l, m, s. repeat split; auto.
    intros B K. erewrite bind_Ok by reflexivity. rewrite Hb. reflexivity.
  - exists (fresh (dom (heap s))), ∅, (set_heap (<[fresh (dom (heap s)) := ∅]> (heap s)) s).
    repeat split; auto.
    + intros B K. erewrite bind_Ok by reflexivity. rewrite Hb. reflexivity.
    + simpl. apply lookup_insert_eq.
    + apply map_Forall_empty.
    + intros p o Hp. simpl. rewrite lookup_insert_ne; [done|].
      symmetry. eapply fresh_ne; eauto.
Qed.

Lemma entry_ok_ref h l f k v :
  entry_ok h l f k v ->
  exists p o, v = VRef p /\ p ≠ l /\ h !! p = Some o /\ numeric (o !! f) = true.
Proof.
  destruct v; simpl; try tauto. intros [Hne Ho].
  destruct (h !! l0) as [o|] eqn:E; [|tauto]. eauto 10.
Qed.

Lemma numeric_read o f :
  numeric (o !! f) = true ->
  forall s, toNumber (default VUndef (o !! f)) s = Ok (field_num o f) s.
Proof.
  unfold field_num. destruct (o !! f) as [[]|]; simpl; try discriminate; reflexivity.
Qed.

Lemma sendMessage_spec this msg now s :
  debug this = false -> messages_ok s ->
  exists s',
    sendMessage this msg now s = Ok VUndef s' /\
    messages_ok s' /\
    stored_record s' "messages" (MD5.md5_hex msg) = Some (send_record msg now) /\
    (forall h, h ≠ MD5.md5_hex msg ->
       stored_record s' "messages" h = stored_record s "messages" h) /\
    outbox s' = outbox s ++ (if should_send s msg now then [message_stanza this msg] else []) /\
    (forall k, k ≠ "messages" -> brain s' !! k = brain s !! k).
Proof.
  intros Hd Hok.
  destruct (load_map _ _ _ Hok) as (l & m & s0 & Hload & Hl & Hm & Hb & Hout & Hcon & Hext & Hkey & Hrec).
  unfold sendMessage. rewrite Hd, Hload. clear Hload.
  set (hash := MD5.md5_hex msg) in *.
  erewrite bind_Ok by (apply getProp_ref; exact Hl).
  erewrite bind_Ok by reflexivity.
  set (r := fresh (dom (heap s0))).
  assert (Hr : heap s0 !! r = None) by apply fresh_heap.
  assert (Hlr : l ≠ r) by (eapply fresh_ne; eauto).
  set (s1 := set_heap _ s0).
  assert (Hs1 : forall p, p ≠ r -> heap s1 !! p = heap s0 !! p)
    by (intros p Hp; simpl; by rewrite lookup_insert_ne).
  assert (Hs1r : heap s1 !! r = Some (send_record msg now))
    by (simpl; apply lookup_insert_eq).
  assert (Hsend :
    (if negb (truthy (default VUndef (m !! hash))) then ret true
     else
       let! t := getProp (VRef r) "time" in
       let! t := toNumber t in
       let! p := getProp (default VUndef (m !! hash)) "time" in
       let! p := toNumber p in
       ret (num_lt (Int 5000) (num_sub t p))) s1 = Ok (should_send s msg now) s1).
  { unfold should_send. fold hash. rewrite Hrec.
    destruct (m !! hash) as [v|] eqn:Hv; [|reflexivity].
    destruct (entry_ok_ref _ _ _ _ _ (Hm _ _ Hv)) as (p & o & -> & Hpl & Hp & Hnum).
    rewrite Hp. cbn [default from_option id truthy negb].
    erewrite bind_Ok by (apply getProp_ref; exact Hs1r).
    erewrite bind_Ok by reflexivity.
    erewrite bind_Ok
      by (apply getProp_ref; rewrite Hs1; [exact Hp | eapply fresh_ne; eauto]).
    erewrite bind_Ok by (apply numeric_read; exact Hnum).
    reflexivity. }
  erewrite bind_Ok by exact Hsend. clear Hsend.
  exists (State (<[l := <[hash := VRef r]> m]> (heap s1))
            (<["messages" := VRef l]> (brain s0))
            (outbox s0 ++ (if should_send s msg now then [message_stanza this msg] else []))
            (console s0 ++ (if should_send s msg now then []
               else ["Skipping sendMessage - previous message sent within 5 seconds"]))).
  assert (Hs1l : heap s1 !! l = Some m) by (rewrite Hs1; auto).
  split.
  { destruct (should_send s msg now).
    - erewrite bind_Ok by reflexivity.
      erewrite bind_Ok by (apply setProp_ref; exact Hs1l).
      erewrite bind_Ok by reflexivity.
      unfold ret, set_brain, set_heap, set_outbox; simpl. by rewrite app_nil_r.
    - erewrite bind_Ok by reflexivity.
      erewrite bind_Ok by (apply setProp_ref; exact Hs1l).
      erewrite bind_Ok by reflexivity.
      unfold ret, set_brain, set_heap, set_outbox; simpl. by rewrite app_nil_r. }
  clearbody s1.
  assert (Hkeep : forall p o, heap s0 !! p = Some o -> p ≠ l ->
            (<[l := <[hash := VRef r]> m]> (heap s1)) !! p = Some o).
  { intros p o Hp Hpl. rewrite lookup_insert_ne by auto.
    rewrite Hs1; [done | eapply fresh_ne; eauto]. }
  assert (Hnew : (<[l := <[hash := VRef r]> m]> (heap s1)) !! r = Some (send_record msg now)).
  { rewrite lookup_insert_ne by auto. exact Hs1r. }
  repeat split.
  - unfold messages_ok, store_ok. simpl. rewrite !lookup_insert_eq.
    apply map_Forall_insert_2.
    + simpl. split; [auto|]. rewrite Hnew. reflexivity.
    + intros k v Hv.
      destruct (entry_ok_ref _ _ _ _ _ (Hm _ _ Hv)) as (p & o & -> & Hpl & Hp & Hnum).
      simpl. split; [auto|]. by rewrite (Hkeep _ _ Hp Hpl).
  - unfold stored_record, stored_object. simpl. rewrite !lookup_insert_eq.
    exact Hnew.
  - intros h Hh. rewrite Hrec.
    unfold stored_record, stored_object. simpl. rewrite !lookup_insert_eq.
    rewrite lookup_insert_ne by auto.
    destruct (m !! h) as [v|] eqn:Hv; [|reflexivity].
    destruct (entry_ok_ref _ _ _ _ _ (Hm _ _ Hv)) as (p & o & -> & Hpl & Hp & Hnum).
    rewrite Hp. by apply Hkeep.
  - simpl. by rewrite Hout.
  - intros k Hk. simpl. rewrite lookup_insert_ne by auto. by rewrite Hb.
Qed.


Lemma join_texts frags s : join (Text <$> frags) s = Ok (concat_text frags) s.
Proof.
  induction frags as [|t frags IH]; [reflexivity|].
  cbn [fmap list_fmap join concat_text fold_right].
  erewrite bind_Ok by exact IH. reflexivity.
Qed.




Lemma last_command_read o :
  numeric (o !! "lastCommandTime") = true ->
  forall s,
    or_else (default VUndef (o !! "lastCommandTime")) (ret (VNum (Int 0))) s
    = Ok (VNum (last_command o)) s.
Proof.
  unfold last_command.
  destruct (o !! "lastCommandTime") as [[| | |[|z]| |]|]; simpl; try discriminate; try reflexivity.
  intros _ s. unfold or_else. simpl. destruct (z =? 0) eqn:E; simpl; [|reflexivity].
  apply Z.eqb_eq in E. subst. reflexivity.
Qed.

Lemma parseMessage_spec stanza now s jid b frags :
  attrs stanza !! "from" = Some jid ->
  findChild "body" (children stanza) = Some b ->
  children b = Text <$> frags ->
  userMessages_ok s ->
  exists s',
    parseMessage stanza now s
    = Ok (MessageEvent "message" (sender jid)
            (replace backslash "" (concat_text frags))
            (rate_limited s (sender jid) now)) s' /\
    userMessages_ok s' /\
    stored_record s' "userMessages" (sender jid) = Some {[ "time" := VNum (Int now) ]} /\
    (forall k, k ≠ sender jid ->
       stored_record s' "userMessages" k = stored_record s "userMessages" k) /\
    outbox s' = outbox s /\
    (forall k, k ≠ "userMessages" -> brain s' !! k = brain s !! k).
Proof.
  intros Hfrom Hbody Hfrags Hok.
  destruct (load_map _ _ _ Hok) as (l & m & s0 & Hload & Hl & Hm & Hb & Hout & Hcon & Hext & Hkey & Hrec).
  unfold parseMessage.
  erewrite bind_Ok by (unfold parseFromUsername; rewrite Hfrom; reflexivity).
  fold (sender jid). set (U := sender jid) in *.
  rewrite Hbody, Hfrags.
  erewrite (bind_Ok (let! text := _ in _))
    by (erewrite bind_Ok by apply join_texts; reflexivity).
  rewrite Hload. clear Hload.
  erewrite bind_Ok by (apply getProp_ref; exact Hl).
  assert (Hlast :
    (let! l0 := (if truthy (default VUndef (m !! U))
                 then getProp (default VUndef (m !! U)) "lastCommandTime"
                 else ret (default VUndef (m !! U))) in
     or_else l0 (ret (VNum (Int 0)))) s0
    = Ok (VNum (match stored_record s "userMessages" U with
                | Some o => last_command o | None => Int 0 end)) s0).
  { rewrite Hrec. destruct (m !! U) as [v|] eqn:Hv; [|reflexivity].
    destruct (entry_ok_ref _ _ _ _ _ (Hm _ _ Hv)) as (p & o & -> & Hpl & Hp & Hnum).
    rewrite Hp. cbn [default from_option id truthy].
    erewrite bind_Ok by (apply getProp_ref; exact Hp).
    by apply last_command_read. }
  erewrite bind_Ok by exact Hlast. clear Hlast.
  erewrite bind_Ok by reflexivity.
  set (r := fresh (dom (heap s0))).
  assert (Hr : heap s0 !! r = None) by apply fresh_heap.
  assert (Hlr : l ≠ r) by (eapply fresh_ne; eauto).
  set (s1 := set_heap _ s0).
  assert (Hs1 : forall p, p ≠ r -> heap s1 !! p = heap s0 !! p)
    by (intros p Hp; simpl; by rewrite lookup_insert_ne).
  assert (Hs1r : heap s1 !! r = Some {[ "time" := VNum (Int now) ]})
    by (simpl; apply lookup_insert_eq).
  assert (Hs1l : heap s1 !! l = Some m) by (rewrite Hs1; auto).
  exists (State (<[l := <[U := VRef r]> m]> (heap s1))
            (<["userMessages" := VRef l]> (brain s0)) (outbox s0) (console s0)).
  split.
  { assert (Hrl :
      (let! l0 := toNumber (VNum (match stored_record s "userMessages" U with
                | Some o => last_command o | None => Int 0 end)) in
       if num_lt (Int 0) l0 then
         let! t := getProp (VRef r) "time" in
         let! t := toNumber t in
         let! l1 := toNumber (VNum (match stored_record s "userMessages" U with
                | Some o => last_command o | None => Int 0 end)) in
         ret (num_lt (num_sub t l1) (Int 5000))
       else ret false) s1 = Ok (rate_limited s U now) s1).
    { unfold rate_limited. erewrite bind_Ok by reflexivity.
      destruct (stored_record s "userMessages" U) as [o|]; [|reflexivity].
      destruct (num_lt (Int 0) (last_command o)); [|reflexivity].
      erewrite bind_Ok by (apply getProp_ref; exact Hs1r).
      erewrite bind_Ok by reflexivity.
      erewrite bind_Ok by reflexivity. reflexivity. }
    erewrite bind_Ok by exact Hrl.
    erewrite bind_Ok by (apply setProp_ref; exact Hs1l).
    erewrite bind_Ok by reflexivity. reflexivity. }
  clearbody s1.
  assert (Hkeep : forall p o, heap s0 !! p = Some o -> p ≠ l ->
            (<[l := <[U := VRef r]> m]> (heap s1)) !! p = Some o).
  { intros p o Hp Hpl. rewrite lookup_insert_ne by auto.
    rewrite Hs1; [done | eapply fresh_ne; eauto]. }
  assert (Hnew : (<[l := <[U := VRef r]> m]> (heap s1)) !! r
                 = Some {[ "time" := VNum (Int now) ]}).
  { rewrite lookup_insert_ne by auto. exact Hs1r. }
  repeat split.
  - unfold userMessages_ok, store_ok. simpl. rewrite !lookup_insert_eq.
    apply map_Forall_insert_2.
    + simpl. split; [auto|]. rewrite Hnew. reflexivity.
    + intros k v Hv.
      destruct (entry_ok_ref _ _ _ _ _ (Hm _ _ Hv)) as (p & o & -> & Hpl & Hp & Hnum).
      simpl. split; [auto|]. by rewrite (Hkeep _ _ Hp Hpl).
  - unfold stored_record, stored_object. simpl. rewrite !lookup_insert_eq.
    exact Hnew.
  - intros h Hh. rewrite Hrec.
    unfold stored_record, stored_object. simpl. rewrite !lookup_insert_eq.
    rewrite lookup_insert_ne by auto.
    destruct (m !! h) as [v|] eqn:Hv; [|reflexivity].
    destruct (entry_ok_ref _ _ _ _ _ (Hm _ _ Hv)) as (p & o & -> & Hpl & Hp & Hnum).
    rewrite Hp. by apply Hkeep.
  - simpl. by rewrite Hout.
  - intros k Hk. simpl. rewrite lookup_insert_ne by auto. by rewrite Hb.
Qed.

(** [updateLatestCommandLog] for a user who has a record: the record
    itself is stamped. *)
Lemma updateLatestCommandLog_known ev now s o :
  userMessages_ok s ->
  stored_record s "userMessages" (fromUsername ev) = Some o ->
  exists s',
    updateLatestCommandLog ev now s = Ok tt s' /\
    userMessages_ok s' /\
    stored_record s' "userMessages" (fromUsername ev)
    = Some (<["lastCommandTime" := VNum (Int now)]> o).
Proof.
  intros Hok Hrec0.
  destruct (load_map _ _ _ Hok) as (l & m & s0 & Hload & Hl & Hm & Hb & Hout & Hcon & Hext & Hkey & Hrec).
  unfold updateLatestCommandLog. rewrite Hload. clear Hload.
  set (U := fromUsername ev) in *.
  erewrite bind_Ok by (apply getProp_ref; exact Hl).
  rewrite Hrec in Hrec0.
  destruct (m !! U) as [v|] eqn:Hv; [|discriminate].
  destruct (entry_ok_ref _ _ _ _ _ (Hm _ _ Hv)) as (p & o' & -> & Hpl & Hp & Hnum).
  assert (o' = o) as -> by congruence.
  cbn [default from_option id]. erewrite bind_Ok by reflexivity.
  erewrite bind_Ok by (apply setProp_ref; exact Hp).
  eexists. split; [reflexivity|]. split.
  - unfold userMessages_ok, store_ok. simpl. rewrite lookup_insert_eq.
    rewrite lookup_insert_ne by auto. rewrite Hl.
    intros k v Hkv.
    destruct (entry_ok_ref _ _ _ _ _ (Hm _ _ Hkv)) as (q & oq & -> & Hql & Hq & Hnq).
    simpl. split; [auto|].
    destruct (decide (p = q)) as [->|Hpq].
    + rewrite lookup_insert_eq. by rewrite lookup_insert_eq.
    + rewrite lookup_insert_ne by auto. by rewrite Hq.
  - unfold stored_record, stored_object. simpl. rewrite lookup_insert_eq.
    rewrite lookup_insert_ne by auto. rewrite Hl, Hv.
    apply lookup_insert_eq.
Qed.

(** [updateLatestCommandLog] for a user who has no record: the stamp goes
    to a new object that no map refers to, and every record of the store
    is as before. *)
Lemma updateLatestCommandLog_unknown ev now s :
  userMessages_ok s ->
  stored_record s "userMessages" (fromUsername ev) = None ->
  exists s',
    updateLatestCommandLog ev now s = Ok tt s' /\
    userMessages_ok s' /\
    forall k, stored_record s' "userMessages" k = stored_record s "userMessages" k.
Proof.
  intros Hok Hrec0.
  destruct (load_map _ _ _ Hok) as (l & m & s0 & Hload & Hl & Hm & Hb & Hout & Hcon & Hext & Hkey & Hrec).
  unfold updateLatestCommandLog. rewrite Hload. clear Hload.
  set (U := fromUsername ev) in *.
  erewrite bind_Ok by (apply getProp_ref; exact Hl).
  rewrite Hrec in Hrec0.
  destruct (m !! U) as [v|] eqn:Hv.
  { destruct (entry_ok_ref _ _ _ _ _ (Hm _ _ Hv)) as (p & o' & -> & Hpl & Hp & Hnum).
    congruence. }
  cbn [default from_option id]. erewrite bind_Ok by reflexivity.
  set (r := fresh (dom (heap s0))).
  assert (Hlr : l ≠ r) by (eapply fresh_ne; eauto).
  erewrite bind_Ok by (apply setProp_ref; simpl; apply lookup_insert_eq).
  eexists. split; [reflexivity|].
  assert (Hkeep : forall q oq, heap s0 !! q = Some oq ->
            (<[r := <["lastCommandTime" := VNum (Int now)]> ∅]> (<[r := ∅]> (heap s0))) !! q
            = Some oq).
  { intros q oq Hq. rewrite !lookup_insert_ne; [done | |]; symmetry; eapply fresh_ne; eauto. }
  split.
  - unfold userMessages_ok, store_ok. simpl. rewrite lookup_insert_eq.
    rewrite (Hkeep _ _ Hl).
    intros k v Hkv.
    destruct (entry_ok_ref _ _ _ _ _ (Hm _ _ Hkv)) as (q & oq & -> & Hql & Hq & Hnq).
    simpl. split; [auto|]. by rewrite (Hkeep _ _ Hq).
  - intros k. rewrite Hrec.
    unfold stored_record, stored_object. simpl. rewrite lookup_insert_eq.
    rewrite (Hkeep _ _ Hl).
    destruct (m !! k) as [v|] eqn:Hkv; [|reflexivity].
    destruct (entry_ok_ref _ _ _ _ _ (Hm _ _ Hkv)) as (q & oq & -> & Hql & Hq & Hnq).
    rewrite Hq. by apply Hkeep.
Qed.

(** ** Well-formed stores stay well-formed *)

Lemma join_inv cs s text s' :
  join cs s = Ok text s' -> exists frags, cs = Text <$> frags.
Proof.
  revert text s'. induction cs as [|[t|e] cs IH]; intros text s'; simpl.
  - intros _. by exists [].
  - unfold bind. destruct (join cs s) as [r s1| |] eqn:E; try discriminate.
    intros _. destruct (IH _ _ eq_refl) as [frags ->]. by exists (t :: frags).
  - discriminate.
Qed.

Lemma parseMessage_inv stanza now s ev s' :
  parseMessage stanza now s = Ok ev s' ->
  exists jid b frags,
    attrs stanza !! "from" = Some jid /\
    findChild "body" (children stanza) = Some b /\
    children b = Text <$> frags.
Proof.
  unfold parseMessage, parseFromUsername.
  destruct (attrs stanza !! "from") as [jid|]; [|discriminate].
  erewrite bind_Ok by reflexivity.
  destruct (findChild "body" (children stanza)) as [b|]; [|discriminate].
  unfold bind at 1. unfold bind at 1.
  destruct (join (children b) s) as [text s1| |] eqn:E; try discriminate.
  intros _. destruct (join_inv _ _ _ _ E) as [frags Hf]. by exists jid, b, frags.
Qed.

Lemma sendMessage_keeps_messages_ok this msg now s v s' :
  messages_ok s -> sendMessage this msg now s = Ok v s' -> messages_ok s'.
Proof.
  intros Hok Hrun. destruct (debug this) eqn:Hd.
  - unfold sendMessage in Hrun. rewrite Hd in Hrun.
    injection Hrun as _ <-. exact Hok.
  - destruct (sendMessage_spec this msg now s Hd Hok) as (s1 & Hrun1 & Hok1 & _).
    congruence.
Qed.

Lemma parseMessage_keeps_userMessages_ok stanza now s ev s' :
  userMessages_ok s -> parseMessage stanza now s = Ok ev s' -> userMessages_ok s'.
Proof.
  intros Hok Hrun.
  destruct (parseMessage_inv _ _ _ _ _ Hrun) as (jid & b & frags & Hfrom & Hbody & Hfrags).
  destruct (parseMessage_spec _ now _ _ _ _ Hfrom Hbody Hfrags Hok) as (s1 & Hrun1 & Hok1 & _).
  congruence.
Qed.

Lemma updateLatestCommandLog_keeps_userMessages_ok ev now s :
  userMessages_ok s ->
  exists s', updateLatestCommandLog ev now s = Ok tt s' /\ userMessages_ok s'.
Proof.
  intros Hok.
  destruct (stored_record s "userMessages" (fromUsername ev)) as [o|] eqn:Hrec.
  - destruct (updateLatestCommandLog_known ev now s o Hok Hrec) as (s' & Hrun & Hok' & _).
    eauto.
  - destruct (updateLatestCommandLog_unknown ev now s Hok Hrec) as (s' & Hrun & Hok' & _).
    eauto.
Qed.

(** Right after a parse, the next parse of a stanza from the same user
    finds no command time to compare with. *)
Lemma parse_after_parse stanza now s ev s' now' :
  userMessages_ok s ->
  parseMessage stanza now s = Ok ev s' ->
  rate_limited s' (fromUsername ev) now' = false.
Proof.
  intros Hok Hrun.
  destruct (parseMessage_inv _ _ _ _ _ Hrun) as (jid & b & frags & Hfrom & Hbody & Hfrags).
  destruct (parseMessage_spec _ now _ _ _ _ Hfrom Hbody Hfrags Hok)
    as (s1 & Hrun1 & _ & Hrec & _).
  rewrite Hrun in Hrun1. injection Hrun1 as -> <-.
  unfold rate_limited. cbn [fromUsername]. by rewrite Hrec.
Qed.

(** ** Strings *)

Lemma indexOf_lower c s : -1 <= indexOf c s.
Proof.
  induction s as [|a s IH]; simpl; [lia|].
  destruct (Ascii.eqb a c); [lia|].
  destruct (indexOf c s <? 0) eqn:E; [lia|]. apply Z.ltb_ge in E. lia.
Qed.

Lemma occurs_cons c a s :
  occurs c (String a s) = Ascii.eqb a c || occurs c s.
Proof.
  unfold occurs. simpl. pose proof (indexOf_lower c s).
  destruct (Ascii.eqb a c); [reflexivity|]. simpl.
  destruct (indexOf c s <? 0) eqn:E.
  - apply Z.ltb_lt in E. symmetry. apply Z.leb_gt. lia.
  - apply Z.ltb_ge in E. transitivity true; [|symmetry]; apply Z.leb_le; lia.
Qed.

Lemma indexOf_first c pre post :
  occurs c pre = false ->
  indexOf c (String.append pre (String c post)) = Z.of_nat (String.length pre).
Proof.
  induction pre as [|a pre IH]; intros H.
  - simpl. by rewrite Ascii.eqb_refl.
  - rewrite occurs_cons in H. apply orb_false_iff in H as [Ha Hpre].
    simpl. rewrite Ha, (IH Hpre).
    destruct (Z.of_nat (String.length pre) <? 0) eqn:E; [apply Z.ltb_lt in E|]; lia.
Qed.

Lemma length_append' s1 s2 :
  String.length (String.append s1 s2) = (String.length s1 + String.length s2)%nat.
Proof. induction s1 as [|a s1 IH]; simpl; [done|]. by rewrite IH. Qed.

Lemma sender_first_slash pre post :
  occurs slash pre = false ->
  sender (String.append pre (String slash post)) = post.
Proof.
  intros H. unfold sender, substr. rewrite indexOf_first by exact H.
  rewrite length_append'. cbn [String.length].
  destruct (Z.of_nat (String.length pre) + 1 <? 0) eqn:E; [apply Z.ltb_lt in E; lia|].
  rewrite Z.min_l by lia.
  replace (Z.to_nat (Z.of_nat (String.length pre) + 1)) with (S (String.length pre)) by lia.
  clear. induction pre as [|a pre IH]; [reflexivity|]. exact IH.
Qed.

(** A string in which [c] occurs is cut at its first [c]. *)
Lemma occurs_split c s :
  occurs c s = true ->
  exists pre post, s = String.append pre (String c post) /\ occurs c pre = false.
Proof.
  induction s as [|a s IH]; [discriminate|].
  rewrite occurs_cons. destruct (Ascii.eqb a c) eqn:Ea.
  - apply Ascii.eqb_eq in Ea. subst. intros _. by exists EmptyString, s.
  - simpl. intros H. destruct (IH H) as (pre & post & -> & Hpre).
    exists (String a pre), post. split; [reflexivity|].
    by rewrite occurs_cons, Ea, Hpre.
Qed.

(** With a single [c] in the string, the first and the last one are the
    same. *)
Lemma after_last_single c pre post :
  occurs c pre = false -> occurs c post = false ->
  after_last c (String.append pre (String c post)) = post.
Proof.
  intros Hpre Hpost. induction pre as [|a pre IH].
  - simpl. by rewrite Hpost, Ascii.eqb_refl.
  - rewrite occurs_cons in Hpre. apply orb_false_iff in Hpre as [Ha Hpre].
    simpl.
    assert (Hocc : occurs c (String.append pre (String c post)) = true).
    { unfold occurs. rewrite indexOf_first by exact Hpre. apply Z.leb_le. lia. }
    rewrite Hocc. by apply IH.
Qed.

(** [replace] takes out the first backslash and leaves the rest of the
    string as it is. *)
Lemma replace_first_backslash pre post :
  occurs (ascii_of_nat 92) pre = false ->
  replace backslash EmptyString (String.append pre (String.append backslash post))
  = String.append pre post.
Proof.
  unfold backslash. generalize (ascii_of_nat 92). intros c.
  induction pre as [|a pre IH]; intros H.
  - simpl. by rewrite Ascii.eqb_refl.
  - rewrite occurs_cons in H. apply orb_false_iff in H as [Ha Hpre].
    rewrite Ascii.eqb_sym in Ha.
    simpl. rewrite Ha. simpl. change (String a pre +:+ post) with (String a (pre +:+ post)).
    f_equal. by apply IH.
Qed.

(** Without a backslash there is nothing to replace. *)
Lemma replace_no_backslash s :
  occurs (ascii_of_nat 92) s = false -> replace backslash EmptyString s = s.
Proof.
  unfold backslash. generalize (ascii_of_nat 92). intros c.
  induction s as [|a s IH]; intros H; [reflexivity|].
  rewrite occurs_cons in H. apply orb_false_iff in H as [Ha Hs].
  rewrite Ascii.eqb_sym in Ha.
  simpl. rewrite Ha. simpl. f_equal. by apply IH.
Qed.

(** ** Stanzas and stores at hand *)

Lemma all_text cs : forallb is_text cs = true -> exists frags, cs = Text <$> frags.
Proof.
  induction cs as [|[t|e] cs IH]; simpl; intros H.
  - by exists [].
  - destruct (IH H) as [frags ->]. by exists (t :: frags).
  - discriminate.
Qed.

Lemma message_from_inv stanza user :
  message_from stanza user = true ->
  exists jid b frags,
    attrs stanza !! "from" = Some jid /\ sender jid = user /\
    findChild "body" (children stanza) = Some b /\ children b = Text <$> frags.
Proof.
  unfold message_from.
  destruct (attrs stanza !! "from") as [jid|]; [|discriminate].
  destruct (findChild "body" (children stanza)) as [b|]; [|discriminate].
  intros [Hu Ht]%andb_true_iff. apply String.eqb_eq in Hu.
  destruct (all_text _ Ht) as [frags Hf]. by exists jid, b, frags.
Qed.

Lemma messages_empty_ok s :
  messages_empty s ->
  messages_ok s /\ forall h, stored_record s "messages" h = None.
Proof.
  unfold messages_empty, messages_ok, store_ok, stored_record, stored_object.
  intros [H|H].
  - rewrite H. by split.
  - destruct (brain s !! "messages") as [[]|]; try discriminate.
    rewrite H. split; [apply map_Forall_empty | done].
Qed.

Lemma field_num_send_record msg now : field_num (send_record msg now) "time" = Int now.
Proof. reflexivity. Qed.

Lemma app_one_ne {A} (l : list A) (x : A) : l ++ [x] ≠ l.
Proof.
  intros H. apply (f_equal length) in H. rewrite length_app in H. simpl in H. lia.
Qed.

(** A call put nothing in the outbox exactly when the decision was not to
    send. *)
Lemma suppressed_iff s s' (b : bool) (e : element) :
  outbox s' = outbox s ++ (if b then [e] else []) ->
  suppressed s s' <-> b = false.
Proof.
  unfold suppressed. intros ->. destruct b.
  - split; [intros H; by apply app_one_ne in H | discriminate].
  - by rewrite app_nil_r.
Qed.

(** Evaluate the run on the left of an equation. *)
Ltac compute_run := vm_compute; reflexivity.

(** ** The command log *)

(** C1 (amended).  For a user name [U] that is not a property name
    every object inherits, parsing a message stanza from [U] at time [now]
    replaces [U]'s entry of the stored [userMessages] map by a record
    whose [time] field is [now], whatever the rate-limit check reported,
    and stores the map back with every other user's record as it was.
    (An inherited name is read through the prototype where the map has no
    entry of its own, and a write to [__proto__] makes no entry.) *)
Theorem parseMessage_records_time stanza U now s :
  message_from stanza U = true ->
  inherited U = false ->
  userMessages_ok s ->
  exists ev s' r,
    parseMessage stanza now s = Ok ev s' /\
    fromUsername ev = U /\
    rateLimited ev = rate_limited s U now /\
    stored_record s' "userMessages" U = Some r /\
    r !! "time" = Some (VNum (Int now)) /\
    (forall k, k ≠ U ->
       stored_record s' "userMessages" k = stored_record s "userMessages" k).
Proof.
  intros (jid & b & frags & Hfrom & <- & Hbody & Hfrags)%message_from_inv _ Hok.
  destruct (parseMessage_spec _ now _ _ _ _ Hfrom Hbody Hfrags Hok)
    as (s' & Hrun & _ & Hrec & Hothers & _).
  eexists _, s', _. split; [exact Hrun|].
  repeat split; [exact Hrec | reflexivity | exact Hothers].
Qed.

Lemma parseMessage_records_time_witness :
  message_from (chat alice_jid ["hello"]) "alice" = true /\
  inherited "alice" = false /\
  userMessages_ok empty_state /\
  exists ev s' r,
    parseMessage (chat alice_jid ["hello"]) 1000 empty_state = Ok ev s' /\
    fromUsername ev = "alice" /\
    rateLimited ev = rate_limited empty_state "alice" 1000 /\
    stored_record s' "userMessages" "alice" = Some r /\
    r !! "time" = Some (VNum (Int 1000)) /\
    (forall k, k ≠ "alice" ->
       stored_record s' "userMessages" k = stored_record empty_state "userMessages" k).
Proof.
  split; [reflexivity|]. split; [reflexivity|]. split; [exact I|].
  apply (parseMessage_records_time (chat alice_jid ["hello"]) "alice" 1000 empty_state);
    [reflexivity | reflexivity | exact I].
Defined.

(** C1, as stated, fails: after a message from alice is parsed at time
    1000 on an empty store, her record has no [lastCommandTime], and the
    next rate-limit check reads 0 from it, not 1000. *)
Lemma parseMessage_leaves_command_time_unset :
  exists ev s' r,
    parseMessage (chat alice_jid ["hello"]) 1000 empty_state = Ok ev s' /\
    stored_record s' "userMessages" "alice" = Some r /\
    r !! "lastCommandTime" = None /\
    last_command r = Int 0 /\
    last_command r ≠ Int 1000.
Proof.
  eexists _, _, _. split; [compute_run|].
  split; [compute_run|]. by vm_compute.
Qed.

(** C2 (amended).  When a message stanza from [U] has been parsed, the
    command it carried is logged by [updateLatestCommandLog] at time [T1],
    and a message stanza from [U] is parsed next at time [T2], this parse
    reports [rateLimited] exactly when [0 < T1] and [T2 - T1 < 5000]. *)
Theorem command_rate_limit stanza1 stanza2 U T0 T1 T2 s :
  message_from stanza1 U = true ->
  message_from stanza2 U = true ->
  userMessages_ok s ->
  exists ev1 s1 s2 ev2 s3,
    parseMessage stanza1 T0 s = Ok ev1 s1 /\
    updateLatestCommandLog ev1 T1 s1 = Ok tt s2 /\
    parseMessage stanza2 T2 s2 = Ok ev2 s3 /\
    rateLimited ev2 = (0 <? T1) && (T2 - T1 <? 5000).
Proof.
  intros (jid1 & b1 & frags1 & Hfrom1 & <- & Hbody1 & Hfrags1)%message_from_inv.
  intros (jid2 & b2 & frags2 & Hfrom2 & HU & Hbody2 & Hfrags2)%message_from_inv Hok.
  destruct (parseMessage_spec _ T0 _ _ _ _ Hfrom1 Hbody1 Hfrags1 Hok)
    as (s1 & Hrun1 & Hok1 & Hrec1 & _).
  set (ev1 := MessageEvent _ _ _ _) in Hrun1.
  destruct (updateLatestCommandLog_known ev1 T1 s1 _ Hok1 Hrec1)
    as (s2 & Hrun2 & Hok2 & Hrec2).
  destruct (parseMessage_spec _ T2 _ _ _ _ Hfrom2 Hbody2 Hfrags2 Hok2)
    as (s3 & Hrun3 & _).
  eexists ev1, s1, s2, _, s3. repeat split; [exact Hrun1 | exact Hrun2 | exact Hrun3 |].
  cbn [rateLimited]. unfold rate_limited. rewrite HU.
  change (fromUsername ev1) with (sender jid1) in Hrec2. rewrite Hrec2.
  unfold last_command. rewrite lookup_insert_eq. reflexivity.
Qed.

Lemma command_rate_limit_witness :
  message_from (chat alice_jid ["!help"]) "alice" = true /\
  message_from (chat alice_jid ["!help again"]) "alice" = true /\
  userMessages_ok empty_state /\
  exists ev1 s1 s2 ev2 s3,
    parseMessage (chat alice_jid ["!help"]) 1000 empty_state = Ok ev1 s1 /\
    updateLatestCommandLog ev1 1200 s1 = Ok tt s2 /\
    parseMessage (chat alice_jid ["!help again"]) 3000 s2 = Ok ev2 s3 /\
    rateLimited ev2 = (0 <? 1200) && (3000 - 1200 <? 5000).
Proof.
  split; [reflexivity|]. split; [reflexivity|]. split; [exact I|].
  apply (command_rate_limit (chat alice_jid ["!help"]) (chat alice_jid ["!help again"])
           "alice" 1000 1200 3000 empty_state); [reflexivity | reflexivity | exact I].
Defined.

(** C2, as stated, fails: two message stanzas from alice parsed at times
    1000 and 2000, with nothing in between, and the second parse reports
    [rateLimited = false]. *)
Lemma second_parse_not_rate_limited :
  exists ev1 s1 ev2 s2,
    parseMessage (chat alice_jid ["!help"]) 1000 empty_state = Ok ev1 s1 /\
    parseMessage (chat alice_jid ["!help"]) 2000 s1 = Ok ev2 s2 /\
    2000 - 1000 < 5000 /\
    rateLimited ev2 = false.
Proof.
  eexists _, _, _, _. split; [compute_run|].
  split; [compute_run|]. split; [lia | reflexivity].
Qed.

(** C3: the code at the failing input.  On a store without a record for
    alice, [updateLatestCommandLog] for alice at time 1500 stores a map
    that has no record for her: the stamp went to an object that the map
    does not refer to. *)
Theorem updateLatestCommandLog_new_user_unrecorded :
  exists s',
    updateLatestCommandLog (MessageEvent "message" "alice" "!help" false) 1500 empty_state
    = Ok tt s' /\
    stored_object s' "userMessages" = Some ∅ /\
    stored_record s' "userMessages" "alice" = None.
Proof.
  eexists. split; [compute_run|]. split; reflexivity.
Qed.

(** ** Stanza normalisation *)

(** C4: the code at the failing input.  A body whose fragments hold two
    backslashes is parsed to a text that still has the second one; with
    every backslash removed it would read [abc]. *)
Theorem parseMessage_first_backslash_only :
  let frags := [String.append "a" (String.append backslash "b");
                String.append backslash "c"] in
  exists ev s',
    parseMessage (chat alice_jid frags) 1000 empty_state = Ok ev s' /\
    message ev = String.append "ab" (String.append backslash "c") /\
    strip_backslashes (concat_text frags) = "abc" /\
    message ev ≠ strip_backslashes (concat_text frags).
Proof.
  eexists _, _. split; [compute_run|]. by vm_compute.
Qed.

(** C5 (amended).  For a stanza whose [from] address contains a slash,
    the extracted user name is the part of the address after its first
    slash. *)
Theorem parseFromUsername_first_slash stanza jid s :
  attrs stanza !! "from" = Some jid ->
  occurs slash jid = true ->
  exists pre post,
    jid = String.append pre (String slash post) /\
    occurs slash pre = false /\
    parseFromUsername stanza s = Ok post s.
Proof.
  intros Hfrom (pre & post & -> & Hpre)%occurs_split.
  exists pre, post. repeat split; [exact Hpre|].
  unfold parseFromUsername. rewrite Hfrom.
  fold (sender (String.append pre (String slash post))).
  by rewrite sender_first_slash.
Qed.

Lemma parseFromUsername_first_slash_witness :
  attrs (chat alice_jid ["hello"]) !! "from" = Some alice_jid /\
  occurs slash alice_jid = true /\
  exists pre post,
    alice_jid = String.append pre (String slash post) /\
    occurs slash pre = false /\
    parseFromUsername (chat alice_jid ["hello"]) empty_state = Ok post empty_state.
Proof.
  split; [reflexivity|]. split; [reflexivity|].
  apply (parseFromUsername_first_slash (chat alice_jid ["hello"]) alice_jid empty_state);
    reflexivity.
Defined.

(** C5, as stated, fails: in an address with two slashes the extracted
    user name starts after the first one, while the part after the last
    one is shorter. *)
Lemma parseFromUsername_two_slashes :
  let jid := "room@conf.example.com/alice/home" in
  occurs slash jid = true /\
  parseFromUsername (chat jid ["hello"]) empty_state = Ok "alice/home" empty_state /\
  after_last slash jid = "home" /\
  parseFromUsername (chat jid ["hello"]) empty_state ≠ Ok (after_last slash jid) empty_state.
Proof. by vm_compute. Qed.

(** ** Outgoing messages *)

(** C8.  Outside debug mode, after [sendMessage] of a text at time [now]
    the stored [messages] map has, under the MD5 digest of the text, the
    record of that text and time, whether or not the message went out. *)
Theorem sendMessage_overwrites_record this msg now s :
  debug this = false ->
  messages_ok s ->
  exists s',
    sendMessage this msg now s = Ok VUndef s' /\
    stored_record s' "messages" (MD5.md5_hex msg)
    = Some {[ "message" := VStr msg; "time" := VNum (Int now) ]} /\
    (suppressed s s' <-> should_send s msg now = false).
Proof.
  intros Hd Hok.
  destruct (sendMessage_spec this msg now s Hd Hok)
    as (s' & Hrun & _ & Hrec & _ & Hout & _).
  exists s'. repeat split; [exact Hrun | exact Hrec | |];
    by apply (suppressed_iff _ _ _ _ Hout).
Qed.

Lemma sendMessage_overwrites_record_witness :
  debug bot = false /\
  messages_ok empty_state /\
  exists s',
    sendMessage bot "hi" 1000 empty_state = Ok VUndef s' /\
    stored_record s' "messages" (MD5.md5_hex "hi")
    = Some {[ "message" := VStr "hi"; "time" := VNum (Int 1000) ]} /\
    (suppressed empty_state s' <-> should_send empty_state "hi" 1000 = false).
Proof.
  split; [reflexivity|]. split; [exact I|].
  apply (sendMessage_overwrites_record bot "hi" 1000 empty_state); [reflexivity | exact I].
Defined.

(** C6 (amended).  Outside debug mode, after [sendMessage] of [S] at
    [T1], a second [sendMessage] of [S] at [T2] is suppressed exactly when
    [T2 - T1 <= 5000]; and for a text [S'] whose MD5 digest is not that of
    [S], whether [sendMessage] of [S'] at [T2] is suppressed is the same
    after the send of [S] as without it. *)
Theorem sendMessage_dedup this S S' T1 T2 s :
  debug this = false ->
  messages_ok s ->
  exists s1,
    sendMessage this S T1 s = Ok VUndef s1 /\
    (exists s2,
        sendMessage this S T2 s1 = Ok VUndef s2 /\
        (suppressed s1 s2 <-> T2 - T1 <= 5000)) /\
    (MD5.md5_hex S' ≠ MD5.md5_hex S ->
     exists s2 s',
       sendMessage this S' T2 s1 = Ok VUndef s2 /\
       sendMessage this S' T2 s = Ok VUndef s' /\
       (suppressed s1 s2 <-> suppressed s s')).
Proof.
  intros Hd Hok.
  destruct (sendMessage_spec this S T1 s Hd Hok)
    as (s1 & Hrun1 & Hok1 & Hrec1 & Hothers1 & _).
  exists s1. split; [exact Hrun1|]. split.
  - destruct (sendMessage_spec this S T2 s1 Hd Hok1)
      as (s2 & Hrun2 & _ & _ & _ & Hout2 & _).
    exists s2. split; [exact Hrun2|].
    rewrite (suppressed_iff _ _ _ _ Hout2).
    unfold should_send. rewrite Hrec1, field_num_send_record. simpl.
    rewrite Z.ltb_ge. reflexivity.
  - intros Hne.
    destruct (sendMessage_spec this S' T2 s1 Hd Hok1)
      as (s2 & Hrun2 & _ & _ & _ & Hout2 & _).
    destruct (sendMessage_spec this S' T2 s Hd Hok)
      as (s' & Hrun' & _ & _ & _ & Hout' & _).
    exists s2, s'. split; [exact Hrun2|]. split; [exact Hrun'|].
    rewrite (suppressed_iff _ _ _ _ Hout2), (suppressed_iff _ _ _ _ Hout').
    unfold should_send. by rewrite (Hothers1 _ Hne).
Qed.

Lemma md5_hi_ho : MD5.md5_hex "ho" ≠ MD5.md5_hex "hi".
Proof. by vm_compute. Qed.

Lemma sendMessage_dedup_witness :
  debug bot = false /\
  messages_ok empty_state /\
  MD5.md5_hex "ho" ≠ MD5.md5_hex "hi" /\
  exists s1,
    sendMessage bot "hi" 1000 empty_state = Ok VUndef s1 /\
    (exists s2,
        sendMessage bot "hi" 3000 s1 = Ok VUndef s2 /\
        (suppressed s1 s2 <-> 3000 - 1000 <= 5000)) /\
    (exists s2 s',
        sendMessage bot "ho" 3000 s1 = Ok VUndef s2 /\
        sendMessage bot "ho" 3000 empty_state = Ok VUndef s' /\
        (suppressed s1 s2 <-> suppressed empty_state s')).
Proof.
  split; [reflexivity|]. split; [exact I|]. split; [exact md5_hi_ho|].
  destruct (sendMessage_dedup bot "hi" "ho" 1000 3000 empty_state eq_refl I)
    as (s1 & Hrun & Hsame & Hother).
  exists s1. split; [exact Hrun|]. split; [exact Hsame|]. exact (Hother md5_hi_ho).
Defined.

(** C6, as stated, fails: [twin_a] and [twin_e] are different texts with
    one MD5 digest.  On an empty store [twin_e] sent at time 1000 goes
    out; sent at time 1000 after [twin_a] was sent at time 0 it is
    suppressed, by the record of [twin_a]. *)
Lemma sendMessage_collision_suppressed :
  twin_e ≠ twin_a /\
  (exists s', sendMessage bot twin_e 1000 empty_state = Ok VUndef s' /\
              ~ suppressed empty_state s') /\
  (exists s1 s2,
      sendMessage bot twin_a 0 empty_state = Ok VUndef s1 /\
      sendMessage bot twin_e 1000 s1 = Ok VUndef s2 /\
      suppressed s1 s2).
Proof.
  split; [by vm_compute|]. split.
  - eexists. split; [compute_run|]. by vm_compute.
  - eexists _, _. split; [compute_run|]. split; [compute_run|]. by vm_compute.
Qed.

(** C7 (amended).  Outside debug mode and starting from a store without
    sent messages, of three sends of the text hi at times 0, 4000 and 9000
    the first goes out, the second is suppressed and so is the third (the
    record then being 5000 ms old, which is not more than 5000), and
    afterwards the record for the text has the time 9000. *)
Theorem sendMessage_three_sends this s :
  debug this = false ->
  messages_empty s ->
  exists s1 s2 s3,
    sendMessage this "hi" 0 s = Ok VUndef s1 /\
    outbox s1 = outbox s ++ [message_stanza this "hi"] /\
    sendMessage this "hi" 4000 s1 = Ok VUndef s2 /\
    suppressed s1 s2 /\
    sendMessage this "hi" 9000 s2 = Ok VUndef s3 /\
    suppressed s2 s3 /\
    stored_record s3 "messages" (MD5.md5_hex "hi") = Some (send_record "hi" 9000).
Proof.
  intros Hd [Hok Hnone]%messages_empty_ok.
  destruct (sendMessage_spec this "hi" 0 s Hd Hok)
    as (s1 & Hrun1 & Hok1 & Hrec1 & _ & Hout1 & _).
  destruct (sendMessage_spec this "hi" 4000 s1 Hd Hok1)
    as (s2 & Hrun2 & Hok2 & Hrec2 & _ & Hout2 & _).
  destruct (sendMessage_spec this "hi" 9000 s2 Hd Hok2)
    as (s3 & Hrun3 & _ & Hrec3 & _ & Hout3 & _).
  exists s1, s2, s3.
  split; [exact Hrun1|]. split.
  { rewrite Hout1. unfold should_send. by rewrite Hnone. }
  split; [exact Hrun2|]. split.
  { apply (suppressed_iff _ _ _ _ Hout2). unfold should_send. by rewrite Hrec1. }
  split; [exact Hrun3|]. split; [|exact Hrec3].
  apply (suppressed_iff _ _ _ _ Hout3). unfold should_send. by rewrite Hrec2.
Qed.

Lemma sendMessage_three_sends_witness :
  debug bot = false /\
  messages_empty empty_state /\
  exists s1 s2 s3,
    sendMessage bot "hi" 0 empty_state = Ok VUndef s1 /\
    outbox s1 = outbox empty_state ++ [message_stanza bot "hi"] /\
    sendMessage bot "hi" 4000 s1 = Ok VUndef s2 /\
    suppressed s1 s2 /\
    sendMessage bot "hi" 9000 s2 = Ok VUndef s3 /\
    suppressed s2 s3 /\
    stored_record s3 "messages" (MD5.md5_hex "hi") = Some (send_record "hi" 9000).
Proof.
  split; [reflexivity|]. split; [left; reflexivity|].
  apply (sendMessage_three_sends bot empty_state); [reflexivity | left; reflexivity].
Defined.

(** C7, as stated, fails: on an empty store, after the sends of hi at
    times 0 and 4000, the send at time 9000 puts nothing in the outbox. *)
Lemma sendMessage_third_send_suppressed :
  exists s1 s2 s3,
    sendMessage bot "hi" 0 empty_state = Ok VUndef s1 /\
    sendMessage bot "hi" 4000 s1 = Ok VUndef s2 /\
    sendMessage bot "hi" 9000 s2 = Ok VUndef s3 /\
    outbox s2 = [message_stanza bot "hi"] /\
    outbox s3 = [message_stanza bot "hi"] /\
    suppressed s2 s3.
Proof.
  eexists _, _, _. split; [compute_run|]. split; [compute_run|].
  split; [compute_run|]. by vm_compute.
Qed.

(** C10.  In debug mode [sendMessage] returns [false], puts nothing in
    the outbox, and leaves the store and the heap as they were: it only
    logs the text. *)
Theorem sendMessage_debug_frame this msg now s :
  debug this = true ->
  exists s',
    sendMessage this msg now s = Ok (VBool false) s' /\
    outbox s' = outbox s /\
    brain s' = brain s /\
    heap s' = heap s /\
    console s' = console s ++ [String.append "DEBUGGING: " msg].
Proof.
  intros Hd. unfold sendMessage. rewrite Hd.
  eexists. split; [reflexivity|]. by repeat split.
Qed.

Lemma sendMessage_debug_frame_witness :
  debug debug_bot = true /\
  exists s',
    sendMessage debug_bot "hi" 1000 empty_state = Ok (VBool false) s' /\
    outbox s' = outbox empty_state /\
    brain s' = brain empty_state /\
    heap s' = heap empty_state /\
    console s' = console empty_state ++ [String.append "DEBUGGING: " "hi"].
Proof.
  split; [reflexivity|].
  apply (sendMessage_debug_frame debug_bot "hi" 1000 empty_state). reflexivity.
Defined.

(** ** Settings *)

(** C9.  When nothing is stored under the key [leaderboard],
    [getSetting] yields [null] for it and [getUser] ends in a TypeError
    for every user name, the store untouched. *)
Theorem getUser_faults_without_leaderboard user s :
  brain s !! "leaderboard" = None ->
  getSetting "leaderboard" s = Ok VNull s /\
  getUser user s = Throw s.
Proof.
  intros H.
  assert (Hget : getSetting "leaderboard" s = Ok VNull s).
  { unfold getSetting. erewrite bind_Ok by reflexivity. by rewrite H. }
  split; [exact Hget|].
  unfold getUser. erewrite bind_Ok by exact Hget. reflexivity.
Qed.

Lemma getUser_faults_without_leaderboard_witness :
  brain empty_state !! "leaderboard" = None /\
  getSetting "leaderboard" empty_state = Ok VNull empty_state /\
  getUser "alice" empty_state = Throw empty_state.
Proof.
  split; [reflexivity|].
  apply (getUser_faults_without_leaderboard "alice" empty_state). reflexivity.
Defined.

(** * Further properties of the client *)

(** ** Settings *)

(** X1.  A value saved with [saveSetting] is what [getSetting] then
    returns for that key if it is truthy, and [null] if it is falsy; the
    settings under other keys read as before. *)
Theorem saveSetting_getSetting key v s :
  exists s',
    saveSetting key v s = Ok tt s' /\
    getSetting key s' = Ok (if truthy v then v else VNull) s' /\
    (forall key', key' ≠ key ->
       exists r, getSetting key' s = Ok r s /\ getSetting key' s' = Ok r s').
Proof.
  eexists. split; [reflexivity|]. split.
  - unfold getSetting. erewrite bind_Ok by reflexivity.
    simpl. rewrite lookup_insert_eq. simpl. unfold or_else.
    destruct (truthy v); reflexivity.
  - intros key' Hne. unfold getSetting.
    erewrite !bind_Ok by reflexivity. simpl.
    rewrite lookup_insert_ne by auto. unfold or_else.
    destruct (truthy (default VUndef (brain s !! key'))); eexists; split; reflexivity.
Qed.

(** X2.  [getSetting] changes nothing and returns [null] or a truthy
    value: never [undefined], [0], the empty string, [false] or NaN. *)
Theorem getSetting_null_or_truthy key s :
  exists v, getSetting key s = Ok v s /\ (v = VNull \/ truthy v = true).
Proof.
  unfold getSetting. erewrite bind_Ok by reflexivity. unfold or_else.
  destruct (truthy (default VUndef (brain s !! key))) eqn:E;
    eexists; (split; [reflexivity|]); auto.
Qed.

(** X3.  With a leaderboard object in the store and a user name that is
    not an inherited property name, [getUser] returns the user's entry
    when it is truthy; otherwise it returns a new empty object, which is
    not entered into the leaderboard: the leaderboard object and the
    store are as before. *)
Theorem getUser_with_leaderboard user s l m :
  brain s !! "leaderboard" = Some (VRef l) ->
  heap s !! l = Some m ->
  inherited user = false ->
  if truthy (default VUndef (m !! user))
  then getUser user s = Ok (default VUndef (m !! user)) s
  else exists r s',
      getUser user s = Ok (VRef r) s' /\
      heap s !! r = None /\
      heap s' !! r = Some ∅ /\
      heap s' !! l = Some m /\
      brain s' = brain s /\ outbox s' = outbox s.
Proof.
  intros Hb Hl _.
  assert (Hget : getSetting "leaderboard" s = Ok (VRef l) s).
  { unfold getSetting. erewrite bind_Ok by reflexivity. by rewrite Hb. }
  unfold getUser. erewrite bind_Ok by exact Hget.
  erewrite bind_Ok by (apply getProp_ref; exact Hl).
  unfold or_else. destruct (truthy (default VUndef (m !! user))); [reflexivity|].
  eexists _, _. split; [reflexivity|]. simpl.
  split; [apply fresh_heap|]. split; [apply lookup_insert_eq|].
  split; [|done]. rewrite lookup_insert_ne; [done|].
  symmetry. eapply fresh_ne; eauto.
Qed.

Lemma getUser_with_leaderboard_witness :
  brain leaderboard_state !! "leaderboard" = Some (VRef 1%positive) /\
  heap leaderboard_state !! 1%positive = Some {[ "alice" := VRef 2%positive ]} /\
  inherited "bob" = false /\
  exists r s',
    getUser "bob" leaderboard_state = Ok (VRef r) s' /\
    heap leaderboard_state !! r = None /\
    heap s' !! r = Some ∅ /\
    heap s' !! 1%positive = Some {[ "alice" := VRef 2%positive ]} /\
    brain s' = brain leaderboard_state /\ outbox s' = outbox leaderboard_state.
Proof.
  split; [reflexivity|]. split; [reflexivity|]. split; [reflexivity|].
  exact (getUser_with_leaderboard "bob" leaderboard_state 1%positive
           {[ "alice" := VRef 2%positive ]} eq_refl eq_refl eq_refl).
Defined.

(** X25.  After a falsy value ([null], [undefined], [false], [0], NaN
    or the empty string) is saved under [leaderboard], [getUser] ends in
    a TypeError for every user name. *)
Theorem getUser_after_falsy_leaderboard user v s :
  truthy v = false ->
  exists s',
    saveSetting "leaderboard" v s = Ok tt s' /\
    getUser user s' = Throw s'.
Proof.
  intros Hv. eexists. split; [reflexivity|].
  unfold getUser, getSetting. erewrite bind_Ok.
  2:{ erewrite bind_Ok by reflexivity. simpl. rewrite lookup_insert_eq. simpl.
      unfold or_else. rewrite Hv. reflexivity. }
  reflexivity.
Qed.

Lemma getUser_after_falsy_leaderboard_witness :
  truthy (VNum (Int 0)) = false /\
  exists s',
    saveSetting "leaderboard" (VNum (Int 0)) leaderboard_state = Ok tt s' /\
    getUser "alice" s' = Throw s'.
Proof.
  split; [reflexivity|].
  exact (getUser_after_falsy_leaderboard "alice" (VNum (Int 0)) leaderboard_state eq_refl).
Defined.

(** ** Child lookup *)

(** X4.  The element [findChild] returns is called [name], it is among
    the children, and no child before it is an element of that name: the
    first match wins. *)
Theorem findChild_first nm cs e :
  findChild nm cs = Some e ->
  name e = nm /\
  exists before after,
    cs = before ++ Elem e :: after /\ findChild nm before = None.
Proof.
  induction cs as [|[t|e'] cs IH]; simpl; [discriminate| |].
  - intros H. destruct (IH H) as (Hn & before & after & -> & Hb).
    split; [exact Hn|]. by exists (Text t :: before), after.
  - destruct (String.eqb (name e') nm) eqn:E.
    + intros [= ->]. apply String.eqb_eq in E.
      split; [exact E|]. by exists [], cs.
    + intros H. destruct (IH H) as (Hn & before & after & -> & Hb).
      split; [exact Hn|]. exists (Elem e' :: before), after.
      split; [reflexivity|]. simpl. by rewrite E.
Qed.

Lemma findChild_first_witness :
  let body := Element "body" ∅ [Text "hi"] in
  let cs := [Text "pad"; Elem (Element "delay" ∅ []); Elem body;
             Elem (Element "body" ∅ [Text "late"])] in
  findChild "body" cs = Some body /\
  name body = "body" /\
  exists before after,
    cs = before ++ Elem body :: after /\ findChild "body" before = None.
Proof.
  intros body cs. split; [reflexivity|].
  exact (findChild_first "body" cs body eq_refl).
Defined.

(** X5.  [findChild] returns [null] exactly when no child is an element
    called [name]; text fragments never match. *)
Theorem findChild_none nm cs :
  findChild nm cs = None <-> forall e, Elem e ∈ cs -> name e ≠ nm.
Proof.
  induction cs as [|[t|e'] cs IH]; simpl.
  - split; [|done]. intros _ e He. by apply elem_of_nil in He.
  - rewrite IH. split.
    + intros H e He. apply elem_of_cons in He as [He|He]; [discriminate|]. by apply H.
    + intros H e He. apply H. by right.
  - destruct (String.eqb (name e') nm) eqn:E.
    + split; [discriminate|]. intros H. apply String.eqb_eq in E.
      exfalso. apply (H e'); [by left | exact E].
    + rewrite IH. apply String.eqb_neq in E. split.
      * intros H e He. apply elem_of_cons in He as [[= ->]|He]; [exact E|]. by apply H.
      * intros H e He. apply H. by right.
Qed.

(** ** Sender addresses *)

Lemma substr_zero s : substr s 0 = s.
Proof. unfold substr. simpl. rewrite Z.min_l by lia. reflexivity. Qed.

(** X6.  For a [from] address without a slash, the extracted user name is
    the whole address. *)
Theorem parseFromUsername_no_slash stanza jid s :
  attrs stanza !! "from" = Some jid ->
  occurs slash jid = false ->
  parseFromUsername stanza s = Ok jid s.
Proof.
  intros Hfrom Hno. unfold parseFromUsername. rewrite Hfrom.
  unfold occurs in Hno. apply Z.leb_gt in Hno.
  pose proof (indexOf_lower slash jid).
  replace (indexOf slash jid + 1) with 0 by lia.
  by rewrite substr_zero.
Qed.

Lemma parseFromUsername_no_slash_witness :
  attrs (chat "room@conf.example.com" ["hello"]) !! "from" = Some "room@conf.example.com" /\
  occurs slash "room@conf.example.com" = false /\
  parseFromUsername (chat "room@conf.example.com" ["hello"]) empty_state
  = Ok "room@conf.example.com" empty_state.
Proof.
  split; [reflexivity|]. split; [reflexivity|].
  exact (parseFromUsername_no_slash (chat "room@conf.example.com" ["hello"])
           "room@conf.example.com" empty_state eq_refl eq_refl).
Defined.

(** X7.  [sendPresence] sends one presence stanza, whose only attribute
    is the address [roomJid + '/' + username], and changes nothing else.
    When the room address has no slash, that address gives back the bot's
    user name when cut the way [parseFromUsername] cuts it. *)
Theorem sendPresence_address this s :
  let addr := String.append (roomJid (creds this))
                (String slash (username (creds this))) in
  sendPresence this s
  = Ok tt (set_outbox (outbox s ++ [Element "presence" {[ "to" := addr ]} []]) s) /\
  (occurs slash (roomJid (creds this)) = false ->
   sender addr = username (creds this)).
Proof.
  intros addr. split; [reflexivity|].
  intros Hno. by apply sender_first_slash.
Qed.

Lemma sendPresence_address_witness :
  sendPresence bot empty_state
  = Ok tt (set_outbox
             (outbox empty_state
              ++ [Element "presence" {[ "to" := "room@chat.livecoding.tv/bot" ]} []])
             empty_state) /\
  occurs slash (roomJid (creds bot)) = false /\
  sender "room@chat.livecoding.tv/bot" = username (creds bot).
Proof.
  destruct (sendPresence_address bot empty_state) as [Hrun Hcut].
  split; [exact Hrun|]. split; [reflexivity|]. exact (Hcut eq_refl).
Defined.

(** ** Message stanzas *)

(** X8.  A message stanza without a [from] attribute or without a [body]
    child ends [parseMessage] in a TypeError before the store is read or
    written: the state is as before. *)
Theorem parseMessage_malformed stanza now s :
  attrs stanza !! "from" = None \/ findChild "body" (children stanza) = None ->
  parseMessage stanza now s = Throw s.
Proof.
  intros H. unfold parseMessage, parseFromUsername.
  destruct (attrs stanza !! "from") as [jid|] eqn:Hfrom; [|reflexivity].
  destruct H as [H|H]; [discriminate|].
  erewrite bind_Ok by reflexivity. by rewrite H.
Qed.

Lemma parseMessage_malformed_witness :
  let stanza := Element "message" {[ "from" := alice_jid ]}
                  [Elem (Element "subject" ∅ [Text "topic"])] in
  (attrs stanza !! "from" = None \/ findChild "body" (children stanza) = None) /\
  parseMessage stanza 1000 empty_state = Throw empty_state.
Proof.
  intros stanza. split; [right; reflexivity|].
  exact (parseMessage_malformed stanza 1000 empty_state (or_intror eq_refl)).
Defined.

Lemma strip_no_backslash s :
  count_char (ascii_of_nat 92) s = O -> strip_backslashes s = s.
Proof.
  induction s as [|a s IH]; [reflexivity|].
  cbn [count_char strip_backslashes].
  destruct (Ascii.eqb a (ascii_of_nat 92)); [discriminate|].
  intros H. f_equal. apply IH. exact H.
Qed.

Lemma replace_at_most_one s :
  (count_char (ascii_of_nat 92) s <= 1)%nat ->
  replace backslash EmptyString s = strip_backslashes s.
Proof.
  induction s as [|a s IH]; [reflexivity|].
  cbn [count_char replace starts_with backslash strip_backslashes].
  rewrite (Ascii.eqb_sym (ascii_of_nat 92) a).
  destruct (Ascii.eqb a (ascii_of_nat 92)) eqn:E; intros H.
  - cbn [andb].
    change (String.append EmptyString (string_drop (String.length backslash) (String a s)))
      with s.
    symmetry. apply strip_no_backslash. cbv iota in H. lia.
  - cbn [andb]. f_equal. apply IH. exact H.
Qed.

(** X9.  When the text fragments of the body hold at most one backslash
    between them, the parsed message is their concatenation with the
    backslash removed, and nothing else is changed in it. *)
Theorem parseMessage_body_at_most_one_backslash stanza now s jid b frags :
  attrs stanza !! "from" = Some jid ->
  findChild "body" (children stanza) = Some b ->
  children b = Text <$> frags ->
  userMessages_ok s ->
  (count_char (ascii_of_nat 92) (concat_text frags) <= 1)%nat ->
  exists ev s',
    parseMessage stanza now s = Ok ev s' /\
    message ev = strip_backslashes (concat_text frags).
Proof.
  intros Hfrom Hbody Hfrags Hok Hcount.
  destruct (parseMessage_spec _ now _ _ _ _ Hfrom Hbody Hfrags Hok) as (s' & Hrun & _).
  eexists _, s'. split; [exact Hrun|]. cbn [message].
  by apply replace_at_most_one.
Qed.

Lemma parseMessage_body_at_most_one_backslash_witness :
  let frags := ["he"; String.append "llo" (String.append backslash "world")] in
  let stanza := chat alice_jid frags in
  attrs stanza !! "from" = Some alice_jid /\
  findChild "body" (children stanza) = Some (Element "body" ∅ (Text <$> frags)) /\
  children (Element "body" ∅ (Text <$> frags)) = Text <$> frags /\
  userMessages_ok empty_state /\
  (count_char (ascii_of_nat 92) (concat_text frags) <= 1)%nat /\
  exists ev s',
    parseMessage stanza 1000 empty_state = Ok ev s' /\
    message ev = strip_backslashes (concat_text frags).
Proof.
  intros frags stanza.
  split; [reflexivity|]. split; [reflexivity|]. split; [reflexivity|].
  split; [exact I|]. split; [vm_compute; lia|].
  exact (parseMessage_body_at_most_one_backslash stanza 1000 empty_state alice_jid
           (Element "body" ∅ (Text <$> frags)) frags eq_refl eq_refl eq_refl I
           (le_n 1)).
Defined.

(** X10.  Two message stanzas from one user parsed one after the other,
    with no call of [updateLatestCommandLog] in between: the second parse
    never reports [rateLimited], whatever the times and whatever the store
    held before. *)
Theorem parseMessage_twice stanza1 stanza2 U T1 T2 s :
  message_from stanza1 U = true ->
  message_from stanza2 U = true ->
  userMessages_ok s ->
  exists ev1 s1 ev2 s2,
    parseMessage stanza1 T1 s = Ok ev1 s1 /\
    parseMessage stanza2 T2 s1 = Ok ev2 s2 /\
    rateLimited ev2 = false.
Proof.
  intros (jid1 & b1 & frags1 & Hfrom1 & <- & Hbody1 & Hfrags1)%message_from_inv.
  intros (jid2 & b2 & frags2 & Hfrom2 & HU & Hbody2 & Hfrags2)%message_from_inv Hok.
  destruct (parseMessage_spec _ T1 _ _ _ _ Hfrom1 Hbody1 Hfrags1 Hok)
    as (s1 & Hrun1 & Hok1 & Hrec1 & _).
  destruct (parseMessage_spec _ T2 _ _ _ _ Hfrom2 Hbody2 Hfrags2 Hok1)
    as (s2 & Hrun2 & _).
  eexists _, s1, _, s2. split; [exact Hrun1|]. split; [exact Hrun2|].
  cbn [rateLimited]. unfold rate_limited. by rewrite HU, Hrec1.
Qed.

Lemma parseMessage_twice_witness :
  message_from (chat alice_jid ["!help"]) "alice" = true /\
  message_from (chat alice_jid ["!help"]) "alice" = true /\
  userMessages_ok empty_state /\
  exists ev1 s1 ev2 s2,
    parseMessage (chat alice_jid ["!help"]) 1000 empty_state = Ok ev1 s1 /\
    parseMessage (chat alice_jid ["!help"]) 1001 s1 = Ok ev2 s2 /\
    rateLimited ev2 = false.
Proof.
  split; [reflexivity|]. split; [reflexivity|]. split; [exact I|].
  exact (parseMessage_twice (chat alice_jid ["!help"]) (chat alice_jid ["!help"])
           "alice" 1000 1001 empty_state eq_refl eq_refl I).
Defined.

(** X11.  On a well-formed store, parsing a message stanza returns
    normally, keeps the store well-formed, sends nothing and leaves every
    store key other than [userMessages] as it was. *)
Theorem parseMessage_keeps_store stanza U now s :
  message_from stanza U = true ->
  userMessages_ok s ->
  exists ev s',
    parseMessage stanza now s = Ok ev s' /\
    userMessages_ok s' /\
    outbox s' = outbox s /\
    (forall k, k ≠ "userMessages" -> brain s' !! k = brain s !! k).
Proof.
  intros (jid & b & frags & Hfrom & <- & Hbody & Hfrags)%message_from_inv Hok.
  destruct (parseMessage_spec _ now _ _ _ _ Hfrom Hbody Hfrags Hok)
    as (s' & Hrun & Hok' & _ & _ & Hout & Hkeys).
  by eexists _, s'.
Qed.

Lemma parseMessage_keeps_store_witness :
  message_from (chat alice_jid ["hello"]) "alice" = true /\
  userMessages_ok empty_state /\
  exists ev s',
    parseMessage (chat alice_jid ["hello"]) 1000 empty_state = Ok ev s' /\
    userMessages_ok s' /\
    outbox s' = outbox empty_state /\
    (forall k, k ≠ "userMessages" -> brain s' !! k = brain empty_state !! k).
Proof.
  split; [reflexivity|]. split; [exact I|].
  exact (parseMessage_keeps_store (chat alice_jid ["hello"]) "alice" 1000 empty_state
           eq_refl I).
Defined.

(** ** Presence stanzas and dispatch *)

(** X12.  For a presence stanza with a [from] address, an [x] child and an
    [item] child inside the first [x], [parsePresence] returns the sender
    cut from the address, the [type] attribute as status ([available] when
    it is absent or empty) and the [role] attribute of the first [item];
    the state is untouched. *)
Theorem parsePresence_well_formed stanza s jid xObj itemObj :
  attrs stanza !! "from" = Some jid ->
  findChild "x" (children stanza) = Some xObj ->
  findChild "item" (children xObj) = Some itemObj ->
  parsePresence stanza s
  = Ok (PresenceEvent "presence" (sender jid) (presence_status stanza)
          (attrs itemObj !! "role")) s /\
  (attrs stanza !! "type" = None \/ attrs stanza !! "type" = Some EmptyString ->
   presence_status stanza = "available") /\
  (forall t, attrs stanza !! "type" = Some t -> t ≠ EmptyString ->
             presence_status stanza = t).
Proof.
  intros Hfrom Hx Hitem. split; [|split].
  - unfold parsePresence, parseFromUsername. rewrite Hfrom.
    erewrite bind_Ok by reflexivity. by rewrite Hx, Hitem.
  - unfold presence_status. by intros [-> | ->].
  - intros t Ht Hne. unfold presence_status. rewrite Ht.
    apply String.eqb_neq in Hne. by rewrite Hne.
Qed.

Lemma parsePresence_well_formed_witness :
  let stanza := presence_of alice_jid "participant" in
  let itemObj := Element "item" {[ "role" := "participant" ]} [] in
  let xObj := Element "x" ∅ [Elem itemObj] in
  attrs stanza !! "from" = Some alice_jid /\
  findChild "x" (children stanza) = Some xObj /\
  findChild "item" (children xObj) = Some itemObj /\
  parsePresence stanza empty_state
  = Ok (PresenceEvent "presence" (sender alice_jid) (presence_status stanza)
          (attrs itemObj !! "role")) empty_state /\
  (attrs stanza !! "type" = None \/ attrs stanza !! "type" = Some EmptyString ->
   presence_status stanza = "available") /\
  (forall t, attrs stanza !! "type" = Some t -> t ≠ EmptyString ->
             presence_status stanza = t).
Proof.
  intros stanza itemObj xObj.
  split; [reflexivity|]. split; [reflexivity|]. split; [reflexivity|].
  exact (parsePresence_well_formed stanza empty_state alice_jid xObj itemObj
           eq_refl eq_refl eq_refl).
Defined.

(** X13.  [parsePresence] never changes the state, and it ends in a
    TypeError exactly when the stanza has no [from] attribute, no [x]
    child, or no [item] child inside its first [x]. *)
Theorem parsePresence_throws_iff stanza s :
  (parsePresence stanza s = Throw s \/ exists ev, parsePresence stanza s = Ok ev s) /\
  (parsePresence stanza s = Throw s <->
   attrs stanza !! "from" = None \/
   findChild "x" (children stanza) = None \/
   exists xObj, findChild "x" (children stanza) = Some xObj /\
                findChild "item" (children xObj) = None).
Proof.
  unfold parsePresence, parseFromUsername.
  destruct (attrs stanza !! "from") as [jid|] eqn:Hfrom.
  2:{ split; [by left|]. split; auto. }
  erewrite bind_Ok by reflexivity.
  destruct (findChild "x" (children stanza)) as [xObj|] eqn:Hx.
  2:{ split; [by left|]. split; auto. }
  destruct (findChild "item" (children xObj)) as [itemObj|] eqn:Hitem.
  - split; [right; eauto|]. split; [discriminate|].
    intros [H|[H|(x' & [= <-] & H)]]; congruence.
  - split; [by left|]. split; [|done]. intros _. right. right. eauto.
Qed.

(** X14.  [parseStanza] touches the state for message stanzas only: for
    any other stanza it returns or throws with the state as it was, and
    for a stanza that is neither a message nor a presence it returns
    [undefined]. *)
Theorem parseStanza_other_kinds stanza now s :
  name stanza ≠ "message" ->
  (parseStanza stanza now s = Throw s \/ exists r, parseStanza stanza now s = Ok r s) /\
  (name stanza ≠ "presence" -> parseStanza stanza now s = Ok None s).
Proof.
  intros Hm%String.eqb_neq. unfold parseStanza. rewrite Hm.
  destruct (String.eqb (name stanza) "presence") eqn:Hp.
  - split; [|intros H; by apply String.eqb_eq in Hp].
    destruct (parsePresence_throws_iff stanza s) as [[H|[ev H]] _].
    + left. unfold bind. by rewrite H.
    + right. erewrite bind_Ok by exact H. eauto.
  - split; [right; eauto | done].
Qed.

Lemma parseStanza_other_kinds_witness :
  name (Element "iq" ∅ []) ≠ "message" /\
  (parseStanza (Element "iq" ∅ []) 1000 empty_state = Throw empty_state \/
   exists r, parseStanza (Element "iq" ∅ []) 1000 empty_state = Ok r empty_state) /\
  (name (Element "iq" ∅ []) ≠ "presence" ->
   parseStanza (Element "iq" ∅ []) 1000 empty_state = Ok None empty_state).
Proof.
  assert (H : name (Element "iq" ∅ []) ≠ "message") by discriminate.
  split; [exact H|].
  exact (parseStanza_other_kinds (Element "iq" ∅ []) 1000 empty_state H).
Defined.

(** ** Replies *)

(** X15.  Outside debug mode, [replyTo] returns [undefined] and treats
    the text [@user: msg] as [sendMessage] does: the text goes out unless
    its record is at most 5000 ms old, and its record is overwritten with
    the time of the call either way. *)
Theorem replyTo_sends_prefixed this user msg now s :
  debug this = false ->
  messages_ok s ->
  exists s',
    replyTo this user msg now s = Ok VUndef s' /\
    outbox s' = outbox s ++
      (if should_send s (reply_text user msg) now
       then [message_stanza this (reply_text user msg)] else []) /\
    stored_record s' "messages" (MD5.md5_hex (reply_text user msg))
    = Some (send_record (reply_text user msg) now).
Proof.
  intros Hd Hok.
  destruct (sendMessage_spec this (reply_text user msg) now s Hd Hok)
    as (s' & Hrun & _ & Hrec & _ & Hout & _).
  exists s'. split; [|by split].
  unfold replyTo. fold (reply_text user msg). by erewrite bind_Ok by exact Hrun.
Qed.

Lemma replyTo_sends_prefixed_witness :
  debug bot = false /\
  messages_ok empty_state /\
  exists s',
    replyTo bot "alice" "welcome" 1000 empty_state = Ok VUndef s' /\
    outbox s' = outbox empty_state ++
      (if should_send empty_state (reply_text "alice" "welcome") 1000
       then [message_stanza bot (reply_text "alice" "welcome")] else []) /\
    stored_record s' "messages" (MD5.md5_hex (reply_text "alice" "welcome"))
    = Some (send_record (reply_text "alice" "welcome") 1000).
Proof.
  split; [reflexivity|]. split; [exact I|].
  exact (replyTo_sends_prefixed bot "alice" "welcome" 1000 empty_state eq_refl I).
Defined.

(** X16.  In debug mode [replyTo] returns [undefined], not the [false]
    of [sendMessage]; it logs the text [@user: msg], sends nothing and
    leaves the store as it was. *)
Theorem replyTo_debug this user msg now s :
  debug this = true ->
  exists s',
    sendMessage this (reply_text user msg) now s = Ok (VBool false) s' /\
    replyTo this user msg now s = Ok VUndef s' /\
    outbox s' = outbox s /\
    brain s' = brain s /\
    heap s' = heap s /\
    console s' = console s ++ [String.append "DEBUGGING: " (reply_text user msg)].
Proof.
  intros Hd. unfold replyTo. fold (reply_text user msg).
  unfold sendMessage. rewrite Hd.
  eexists. split; [reflexivity|]. by repeat split.
Qed.

Lemma replyTo_debug_witness :
  debug debug_bot = true /\
  exists s',
    sendMessage debug_bot (reply_text "alice" "welcome") 1000 empty_state
    = Ok (VBool false) s' /\
    replyTo debug_bot "alice" "welcome" 1000 empty_state = Ok VUndef s' /\
    outbox s' = outbox empty_state /\
    brain s' = brain empty_state /\
    heap s' = heap empty_state /\
    console s' = console empty_state
                 ++ [String.append "DEBUGGING: " (reply_text "alice" "welcome")].
Proof.
  split; [reflexivity|].
  exact (replyTo_debug debug_bot "alice" "welcome" 1000 empty_state eq_refl).
Defined.

(** ** Sequences of sends *)

Lemma should_send_goes_out s msg now :
  should_send s msg now = goes_out (last_sent s msg) now.
Proof.
  unfold should_send, goes_out, last_sent.
  by destruct (stored_record s "messages" (MD5.md5_hex msg)).
Qed.

(** Sends of one text at a list of times follow the sliding window. *)
Lemma send_each_spec this msg times :
  debug this = false ->
  forall s,
    messages_ok s ->
    exists s',
      send_each this msg times s = Ok tt s' /\
      messages_ok s' /\
      outbox s' = outbox s ++
        repeat (message_stanza this msg) (count_true (window (last_sent s msg) times)).
Proof.
  intros Hd. induction times as [|t ts IH]; intros s Hok.
  - exists s. split; [reflexivity|]. split; [exact Hok|]. simpl. by rewrite app_nil_r.
  - destruct (sendMessage_spec this msg t s Hd Hok)
      as (s1 & Hrun1 & Hok1 & Hrec1 & _ & Hout1 & _).
    destruct (IH s1 Hok1) as (s' & Hrun & Hok' & Hout).
    exists s'. split; [|split; [exact Hok'|]].
    + cbn [send_each]. by erewrite bind_Ok by exact Hrun1.
    + rewrite Hout, Hout1. cbn [window count_true].
      assert (Hlast : last_sent s1 msg = Some (Int t)).
      { unfold last_sent. by rewrite Hrec1. }
      rewrite Hlast, should_send_goes_out, <- app_assoc.
      by destruct (goes_out (last_sent s msg) t).
Qed.

Lemma window_flood t0 times :
  within_window t0 times = true -> count_true (window (Some (Int t0)) times) = O.
Proof.
  revert t0. induction times as [|t ts IH]; intros t0; [reflexivity|].
  cbn [within_window window count_true goes_out num_sub num_lt].
  intros [Hgap Hrest]%andb_true_iff. rewrite (IH _ Hrest).
  apply Z.leb_le in Hgap.
  destruct (5000 <? t - t0) eqn:E; [apply Z.ltb_lt in E; lia | reflexivity].
Qed.

(** X17.  Outside debug mode, sending one text at each time of a list
    puts as many copies of its stanza in the outbox as the sliding window
    lets through: a send goes out when the text has no earlier send or its
    latest send, suppressed or not, is more than 5000 ms old. *)
Theorem send_each_window this msg times s :
  debug this = false ->
  messages_ok s ->
  exists s',
    send_each this msg times s = Ok tt s' /\
    outbox s' = outbox s ++
      repeat (message_stanza this msg) (count_true (window (last_sent s msg) times)).
Proof.
  intros Hd Hok.
  destruct (send_each_spec this msg times Hd s Hok) as (s' & Hrun & _ & Hout).
  by exists s'.
Qed.

Lemma send_each_window_witness :
  debug bot = false /\
  messages_ok empty_state /\
  exists s',
    send_each bot "hi" [0; 4000; 9000; 14001] empty_state = Ok tt s' /\
    outbox s' = outbox empty_state ++
      repeat (message_stanza bot "hi")
        (count_true (window (last_sent empty_state "hi") [0; 4000; 9000; 14001])).
Proof.
  split; [reflexivity|]. split; [exact I|].
  exact (send_each_window bot "hi" [0; 4000; 9000; 14001] empty_state eq_refl I).
Defined.

(** X18.  Outside debug mode, once a text has a record, sends of it that
    each come at most 5000 ms after the one before never go out, however
    many there are and however long they go on. *)
Theorem send_each_flood this msg t0 times s :
  debug this = false ->
  messages_ok s ->
  last_sent s msg = Some (Int t0) ->
  within_window t0 times = true ->
  exists s',
    send_each this msg times s = Ok tt s' /\
    suppressed s s'.
Proof.
  intros Hd Hok Hlast Hgaps.
  destruct (send_each_spec this msg times Hd s Hok) as (s' & Hrun & _ & Hout).
  exists s'. split; [exact Hrun|]. unfold suppressed.
  rewrite Hout, Hlast, (window_flood _ _ Hgaps). apply app_nil_r.
Qed.

Lemma send_each_flood_witness :
  debug bot = false /\
  messages_ok hi_sent /\
  last_sent hi_sent "hi" = Some (Int 0) /\
  within_window 0 [4000; 9000; 14000; 19000] = true /\
  exists s',
    send_each bot "hi" [4000; 9000; 14000; 19000] hi_sent = Ok tt s' /\
    suppressed hi_sent s'.
Proof.
  assert (Hok : messages_ok hi_sent) by (apply (bool_decide_unpack _); vm_compute; exact I).
  assert (Hlast : last_sent hi_sent "hi" = Some (Int 0)) by (vm_compute; reflexivity).
  split; [reflexivity|]. split; [exact Hok|]. split; [exact Hlast|].
  split; [reflexivity|].
  exact (send_each_flood bot "hi" 0 [4000; 9000; 14000; 19000] hi_sent eq_refl Hok Hlast
           eq_refl).
Defined.

(** ** The stores across calls *)

(** X19.  On a well-formed [messages] store, [sendMessage] returns
    normally in either mode and leaves the store well-formed. *)
Theorem sendMessage_keeps_store this msg now s :
  messages_ok s ->
  exists v s', sendMessage this msg now s = Ok v s' /\ messages_ok s'.
Proof.
  intros Hok. destruct (debug this) eqn:Hd.
  - unfold sendMessage. rewrite Hd. eexists _, _. split; [reflexivity|]. exact Hok.
  - destruct (sendMessage_spec this msg now s Hd Hok) as (s' & Hrun & Hok' & _).
    by exists VUndef, s'.
Qed.

Lemma sendMessage_keeps_store_witness :
  messages_ok hi_sent /\
  exists v s', sendMessage bot "ho" 2000 hi_sent = Ok v s' /\ messages_ok s'.
Proof.
  assert (Hok : messages_ok hi_sent) by (apply (bool_decide_unpack _); vm_compute; exact I).
  split; [exact Hok|].
  exact (sendMessage_keeps_store bot "ho" 2000 hi_sent Hok).
Defined.

(** X20.  Outside debug mode, [sendMessage] of a text leaves the record
    under every other digest, and what the store holds under every key
    other than [messages], as it was. *)
Theorem sendMessage_frame this msg now s :
  debug this = false ->
  messages_ok s ->
  exists s',
    sendMessage this msg now s = Ok VUndef s' /\
    (forall h, h ≠ MD5.md5_hex msg ->
       stored_record s' "messages" h = stored_record s "messages" h) /\
    (forall k, k ≠ "messages" -> brain s' !! k = brain s !! k).
Proof.
  intros Hd Hok.
  destruct (sendMessage_spec this msg now s Hd Hok)
    as (s' & Hrun & _ & _ & Hothers & _ & Hkeys).
  by exists s'.
Qed.

Lemma sendMessage_frame_witness :
  debug bot = false /\
  messages_ok hi_sent /\
  exists s',
    sendMessage bot "ho" 2000 hi_sent = Ok VUndef s' /\
    (forall h, h ≠ MD5.md5_hex "ho" ->
       stored_record s' "messages" h = stored_record hi_sent "messages" h) /\
    (forall k, k ≠ "messages" -> brain s' !! k = brain hi_sent !! k).
Proof.
  assert (Hok : messages_ok hi_sent) by (apply (bool_decide_unpack _); vm_compute; exact I).
  split; [reflexivity|]. split; [exact Hok|].
  exact (sendMessage_frame bot "ho" 2000 hi_sent eq_refl Hok).
Defined.

(** X21.  Outside debug mode, when the store holds [true] or a number
    other than 0 under [messages] instead of a map, [sendMessage] hands
    the message to the transport and then ends in a TypeError at the
    write of the record; the store is not updated. *)
Theorem sendMessage_on_primitive_store this msg now s v :
  debug this = false ->
  brain s !! "messages" = Some v ->
  (v = VBool true \/ exists z, z ≠ 0 /\ v = VNum (Int z)) ->
  exists s',
    sendMessage this msg now s = Throw s' /\
    outbox s' = outbox s ++ [message_stanza this msg] /\
    brain s' = brain s.
Proof.
  intros Hd Hb Hv. unfold sendMessage. rewrite Hd.
  erewrite bind_Ok by reflexivity. rewrite Hb. cbn [default from_option id].
  assert (Ht : truthy v = true).
  { destruct Hv as [-> | (z & Hz & ->)]; [reflexivity|].
    simpl. by apply negb_true_iff, Z.eqb_neq. }
  unfold or_else at 1. rewrite Ht.
  erewrite bind_Ok by reflexivity.
  destruct Hv as [-> | (z & Hz & ->)];
    (erewrite bind_Ok by reflexivity;
     erewrite bind_Ok by reflexivity;
     cbn [truthy negb];
     erewrite bind_Ok by reflexivity;
     erewrite bind_Ok by reflexivity;
     eexists; split; [reflexivity|]; by split).
Qed.

Lemma sendMessage_on_primitive_store_witness :
  let s := State ∅ {[ "messages" := VNum (Int 5) ]} [] [] in
  debug bot = false /\
  brain s !! "messages" = Some (VNum (Int 5)) /\
  (VNum (Int 5) = VBool true \/ exists z, z ≠ 0 /\ VNum (Int 5) = VNum (Int z)) /\
  exists s',
    sendMessage bot "hi" 1000 s = Throw s' /\
    outbox s' = outbox s ++ [message_stanza bot "hi"] /\
    brain s' = brain s.
Proof.
  intros s.
  assert (Hv : VNum (Int 5) = VBool true \/ exists z, z ≠ 0 /\ VNum (Int 5) = VNum (Int z)).
  { right. exists 5. split; [discriminate | reflexivity]. }
  split; [reflexivity|]. split; [reflexivity|]. split; [exact Hv|].
  exact (sendMessage_on_primitive_store bot "hi" 1000 s (VNum (Int 5)) eq_refl eq_refl Hv).
Defined.

(** X22.  On a well-formed [userMessages] store [updateLatestCommandLog]
    returns normally for every event and leaves the store well-formed. *)
Theorem updateLatestCommandLog_keeps_store ev now s :
  userMessages_ok s ->
  exists s', updateLatestCommandLog ev now s = Ok tt s' /\ userMessages_ok s'.
Proof.
  intros Hok.
  destruct (stored_record s "userMessages" (fromUsername ev)) as [o|] eqn:Hrec.
  - destruct (updateLatestCommandLog_known ev now s o Hok Hrec) as (s' & Hrun & Hok' & _).
    eauto.
  - destruct (updateLatestCommandLog_unknown ev now s Hok Hrec) as (s' & Hrun & Hok' & _).
    eauto.
Qed.

Lemma updateLatestCommandLog_keeps_store_witness :
  userMessages_ok alice_seen /\
  exists s',
    updateLatestCommandLog (MessageEvent "message" "alice" "!help" false) 1200 alice_seen
    = Ok tt s' /\
    userMessages_ok s'.
Proof.
  assert (Hok : userMessages_ok alice_seen)
    by (apply (bool_decide_unpack _); vm_compute; exact I).
  split; [exact Hok|].
  exact (updateLatestCommandLog_keeps_store
           (MessageEvent "message" "alice" "!help" false) 1200 alice_seen Hok).
Defined.

(** X23.  For a user who has a record in the stored [userMessages] map,
    [updateLatestCommandLog] sets the [lastCommandTime] of that record to
    the time of the call and keeps its other fields. *)
Theorem updateLatestCommandLog_stamps ev now s o :
  userMessages_ok s ->
  stored_record s "userMessages" (fromUsername ev) = Some o ->
  exists s' o',
    updateLatestCommandLog ev now s = Ok tt s' /\
    stored_record s' "userMessages" (fromUsername ev) = Some o' /\
    o' !! "lastCommandTime" = Some (VNum (Int now)) /\
    (forall f, f ≠ "lastCommandTime" -> o' !! f = o !! f).
Proof.
  intros Hok Hrec.
  destruct (updateLatestCommandLog_known ev now s o Hok Hrec) as (s' & Hrun & _ & Hrec').
  eexists s', _. split; [exact Hrun|]. split; [exact Hrec'|].
  split; [apply lookup_insert_eq|].
  intros f Hf. by rewrite lookup_insert_ne.
Qed.

Lemma updateLatestCommandLog_stamps_witness :
  let ev := MessageEvent "message" "alice" "!help" false in
  userMessages_ok alice_seen /\
  stored_record alice_seen "userMessages" (fromUsername ev)
  = Some {[ "time" := VNum (Int 1000) ]} /\
  exists s' o',
    updateLatestCommandLog ev 1200 alice_seen = Ok tt s' /\
    stored_record s' "userMessages" (fromUsername ev) = Some o' /\
    o' !! "lastCommandTime" = Some (VNum (Int 1200)) /\
    (forall f, f ≠ "lastCommandTime" -> o' !! f = ({[ "time" := VNum (Int 1000) ]} : obj) !! f).
Proof.
  intros ev.
  assert (Hok : userMessages_ok alice_seen)
    by (apply (bool_decide_unpack _); vm_compute; exact I).
  assert (Hrec : stored_record alice_seen "userMessages" (fromUsername ev)
                 = Some {[ "time" := VNum (Int 1000) ]}) by (vm_compute; reflexivity).
  split; [exact Hok|]. split; [exact Hrec|].
  exact (updateLatestCommandLog_stamps ev 1200 alice_seen _ Hok Hrec).
Defined.

(** X24.  Two calls of [updateLatestCommandLog] for a user with a record:
    the record ends with the time of the later call, as if the earlier
    call had not been made. *)
Theorem updateLatestCommandLog_last_wins ev T1 T2 s o :
  userMessages_ok s ->
  stored_record s "userMessages" (fromUsername ev) = Some o ->
  exists s1 s2,
    updateLatestCommandLog ev T1 s = Ok tt s1 /\
    updateLatestCommandLog ev T2 s1 = Ok tt s2 /\
    stored_record s2 "userMessages" (fromUsername ev)
    = Some (<["lastCommandTime" := VNum (Int T2)]> o).
Proof.
  intros Hok Hrec.
  destruct (updateLatestCommandLog_known ev T1 s o Hok Hrec) as (s1 & Hrun1 & Hok1 & Hrec1).
  destruct (updateLatestCommandLog_known ev T2 s1 _ Hok1 Hrec1) as (s2 & Hrun2 & _ & Hrec2).
  rewrite insert_insert_eq in Hrec2.
  exists s1, s2. split; [exact Hrun1|]. split; [exact Hrun2|]. exact Hrec2.
Qed.

Lemma updateLatestCommandLog_last_wins_witness :
  let ev := MessageEvent "message" "alice" "!help" false in
  userMessages_ok alice_seen /\
  stored_record alice_seen "userMessages" (fromUsername ev)
  = Some {[ "time" := VNum (Int 1000) ]} /\
  exists s1 s2,
    updateLatestCommandLog ev 1200 alice_seen = Ok tt s1 /\
    updateLatestCommandLog ev 1300 s1 = Ok tt s2 /\
    stored_record s2 "userMessages" (fromUsername ev)
    = Some (<["lastCommandTime" := VNum (Int 1300)]> {[ "time" := VNum (Int 1000) ]}).
Proof.
  intros ev.
  assert (Hok : userMessages_ok alice_seen)
    by (apply (bool_decide_unpack _); vm_compute; exact I).
  assert (Hrec : stored_record alice_seen "userMessages" (fromUsername ev)
                 = Some {[ "time" := VNum (Int 1000) ]}) by (vm_compute; reflexivity).
  split; [exact Hok|]. split; [exact Hrec|].
  exact (updateLatestCommandLog_last_wins ev 1200 1300 alice_seen _ Hok Hrec).
Defined.
